(** * PKP wallet manager: a shallow embedding of [src/index.ts]

    The development follows the TypeScript class [PKPWalletManager]:
    the static chain table and its lookup, the flat-file registry of
    user/key bindings, key issuance ([createWallet]), the signing facade
    ([getWallet], [signMessage], [signTypedData], [signTransaction]) and
    the two verification helpers, then start-up ([initialize]) and the
    utility methods ([getWalletInfo], [listUserWallets]).  Left out are
    [signERC2612Permit], whose domain gets an [undefined] chain id when
    the chain name is inherited from [Object.prototype], which
    [EIP712Domain.t] does not hold, and the console output.

    Conventions of the embedding.
    - Strings are [string] (sequences of 8-bit characters); [===] on
      strings is [String.eqb].
    - A thrown exception is the [Err] branch of [Result]; an [async]
      method is a computation in the monad [M], which threads the
      outside world (the data file, the Lit network, the log of requests
      sent to the network) and keeps the world reached when it throws.
    - The Lit SDK and ethers are interfaces ([LitNetwork], [AuthHelpers],
      [PKPEthers], [Ethers]); the theorems hold for every implementation
      of them.
    - TypeScript [number]s that occur (gas limits, chain ids) are
      integral and modelled in [Z].
    - An optional field is an [option]; a default argument
      ([chain = "datil"]) is the caller passing that value. *)

From Stdlib Require Import String Ascii List ZArith Bool Lia.
Import ListNotations.

Local Open Scope string_scope.
Local Open Scope Z_scope.

(* ================================================================= *)
(** ** Types and interfaces *)

Module NativeCurrency.
Record t := mk { name : string; symbol : string; decimals : Z }.
End NativeCurrency.

Module ChainConfig.
Record t := mk {
  name : string;
  chainId : Z;
  rpcUrl : string;
  nativeCurrency : NativeCurrency.t;
  blockExplorer : option string
}.
End ChainConfig.

Module UserData.
Record t := mk { id : string; name : string; email : string }.
End UserData.

Module PKPData.
Record t := mk { tokenId : string; publicKey : string; ethAddress : string }.
End PKPData.

Module UserPKPData.
Record t := mk { user : UserData.t; pkp : PKPData.t; createdAt : string }.
End UserPKPData.

(** [messageType?: "plain" | "eip191" | "eip712"] *)
Inductive MessageType := plain | eip191 | eip712.

Module SignMessageOptions.
Record t := mk { chain : option string; messageType : option MessageType }.
(** The default argument [options = {}]. *)
Definition empty : t := mk None None.
End SignMessageOptions.

Module EIP712Domain.
Record t := mk {
  name : string;
  version : string;
  chainId : Z;
  verifyingContract : string;
  salt : option string
}.
End EIP712Domain.

(** [{ [key: string]: Array<{ name: string; type: string }> }] *)
Definition EIP712Types := list (string * list (string * string)).

(** The [value: any] argument of typed-data signing: a JSON value. *)
Unset Elimination Schemes.
Inductive Json :=
| JNull
| JBool (b : bool)
| JNum (n : Z)
| JStr (s : string)
| JArr (items : list Json)
| JObj (fields : list (string * Json)).
Set Elimination Schemes.

Module TransactionRequest.
Record t := mk {
  to : string;
  value : option string;
  gasLimit : option Z;
  gasPrice : option string;
  data : option string
}.
End TransactionRequest.

(** Conditions raised by the manager.  [Upstream] is anything thrown by
    the Lit SDK, [FsError] anything thrown by [fs]; [TypeError] is the
    JavaScript runtime error of reading a property of [undefined]. *)
Inductive Error :=
| NotInitialized
| NoPKPFound (userId : string)
| UnsupportedChain (chain : string) (supported : list string)
| UnsupportedMessageType (messageType : MessageType)
| TypeError (what : string)
| FsError
| Upstream (message : string).

Inductive Result (A : Type) :=
| Ok (a : A)
| Err (e : Error).
Arguments Ok {A} a.
Arguments Err {A} e.

Definition is_ok {A} (r : Result A) : bool :=
  match r with Ok _ => true | Err _ => false end.

(* ================================================================= *)
(** ** Chain configurations *)

(** [LIT_RPC.CHRONICLE_YELLOWSTONE], a constant of
    [@lit-protocol/constants]; no property below depends on its value. *)
Definition LIT_RPC_CHRONICLE_YELLOWSTONE : string :=
  "https://yellowstone-rpc.litprotocol.com/".

Definition ETH : NativeCurrency.t := NativeCurrency.mk "Ether" "ETH" 18.

(** The own properties of the object literal [SUPPORTED_CHAINS], in
    insertion order (the order [Object.keys] reports). *)
Definition SUPPORTED_CHAINS : list (string * ChainConfig.t) :=
  [ ("ethereum",
     ChainConfig.mk "Ethereum Mainnet" 1 "https://eth.llamarpc.com" ETH
       (Some "https://etherscan.io"));
    ("sepolia",
     ChainConfig.mk "Sepolia Testnet" 11155111
       "https://sepolia.infura.io/v3/YOUR_KEY" ETH
       (Some "https://sepolia.etherscan.io"));
    ("polygon",
     ChainConfig.mk "Polygon Mainnet" 137 "https://polygon.llamarpc.com"
       (NativeCurrency.mk "MATIC" "MATIC" 18)
       (Some "https://polygonscan.com"));
    ("datil",
     ChainConfig.mk "Lit Datil Testnet" 175188 LIT_RPC_CHRONICLE_YELLOWSTONE
       (NativeCurrency.mk "LIT" "LIT" 18) None) ].

(** *** Property access on a JavaScript object

    [SUPPORTED_CHAINS] is an ordinary object, so [SUPPORTED_CHAINS[chain]]
    is a property read: an own property if there is one, and otherwise
    whatever the prototype chain has under that key.  The prototype of an
    object literal is [Object.prototype], whose properties are listed
    here; each of them is a function, except [__proto__], an accessor
    that yields [Object.prototype] itself. *)
Definition Object_prototype : list string :=
  [ "constructor"; "__defineGetter__"; "__defineSetter__"; "hasOwnProperty";
    "__lookupGetter__"; "__lookupSetter__"; "isPrototypeOf";
    "propertyIsEnumerable"; "toString"; "valueOf"; "__proto__";
    "toLocaleString" ].

(** What a property read on the chain table evaluates to ([undefined] is
    [None] of the option around it). *)
Inductive Property :=
| Own (config : ChainConfig.t)
| Inherited (key : string).

Fixpoint own_property {V} (o : list (string * V)) (key : string) : option V :=
  match o with
  | [] => None
  | (k, v) :: rest => if String.eqb k key then Some v else own_property rest key
  end.

Definition in_keys (keys : list string) (key : string) : bool :=
  existsb (String.eqb key) keys.

Definition get_property (o : list (string * ChainConfig.t)) (key : string)
  : option Property :=
  match own_property o key with
  | Some c => Some (Own c)
  | None => if in_keys Object_prototype key then Some (Inherited key) else None
  end.

(** [Object.keys(SUPPORTED_CHAINS)] *)
Definition getSupportedChains : list string := map fst SUPPORTED_CHAINS.

(** [getChainConfig(chain)].  The test [!config] is true only for
    [undefined]: every value a read of the table can produce is an
    object or a function. *)
Definition getChainConfig (chain : string) : Result Property :=
  match get_property SUPPORTED_CHAINS chain with
  | None => Err (UnsupportedChain chain getSupportedChains)
  | Some config => Ok config
  end.

(** The reads [config.chainId] and [config.name] on what [getChainConfig]
    returned.  [Object.name] is ["Object"], the other inherited
    functions are named after their key, and [Object.prototype] has no
    [name]; none of them has a [chainId]. *)
Definition Property_chainId (p : Property) : option Z :=
  match p with
  | Own c => Some (ChainConfig.chainId c)
  | Inherited _ => None
  end.

Definition Property_name (p : Property) : option string :=
  match p with
  | Own c => Some (ChainConfig.name c)
  | Inherited key =>
      if String.eqb key "constructor" then Some "Object"
      else if String.eqb key "__proto__" then None
      else Some key
  end.

(* ================================================================= *)
(** ** JavaScript helpers *)

(** [String.prototype.toLowerCase], on the ASCII letters (addresses and
    chain names are ASCII text). *)
Definition lower_ascii (c : ascii) : ascii :=
  let n := N_of_ascii c in
  if andb (N.leb 65 n) (N.leb n 90) then ascii_of_N (n + 32) else c.

Fixpoint toLowerCase (s : string) : string :=
  match s with
  | EmptyString => EmptyString
  | String c rest => String (lower_ascii c) (toLowerCase rest)
  end.

(** Truthiness of a string and of a number, as tested by [||]. *)
Definition truthy_string (s : string) : bool := negb (String.eqb s "").
Definition truthy_number (n : Z) : bool := negb (Z.eqb n 0).

(** [Array.prototype.find] *)
Fixpoint Array_find {A} (p : A -> bool) (xs : list A) : option A :=
  match xs with
  | [] => None
  | x :: rest => if p x then Some x else Array_find p rest
  end.

(* ================================================================= *)
(** ** The outside world *)

(** What a call into an SDK yields: a value, or a thrown error. *)
Inductive Outcome (A : Type) :=
| Returns (a : A)
| Throws (message : string).
Arguments Returns {A} a.
Arguments Throws {A} message.

(** *** The data file

    [this.dataFile] either does not exist, cannot be read or parsed, or
    holds the JSON text of an array of bindings (what [saveUserPKPs]
    writes and what [loadUserPKPs] declares to return).  Whether a
    [writeFileSync] goes through is up to the file system:
    [write_fails k] tells whether the [k]-th write of the run throws,
    and [writes] counts the writes attempted so far. *)
Inductive FileState :=
| FileAbsent
| FileUnreadable
| FileJson (records : list UserPKPData.t).

Record Disk := mkDisk {
  file : FileState;
  write_fails : nat -> bool;
  writes : nat
}.

(** *** The Lit network and the helpers of the SDKs *)

Inductive LitResource :=
| LitActionResource (resource : string)
| LitPKPResource (tokenId : string).

Inductive LitAbility := LitActionExecution | PKPSigning.

Definition ResourceAbilityRequest := (LitResource * LitAbility)%type.

Inductive AuthMethodType := EthWallet.
Inductive AuthMethodScope := SignAnything | PersonalSign.

(** The signature object made by [generateAuthSig], as its JSON text. *)
Definition AuthSig := string.

Record AuthMethod := mkAuthMethod {
  authMethodType : AuthMethodType;
  accessToken : AuthSig
}.

(** [ethers.Wallet], the master credential. *)
Record Wallet := mkWallet { address : string }.

Record LitNodeClient := mkLitNodeClient { litNetwork : string }.
Record LitContracts := mkLitContracts { signer : Wallet; contractsNetwork : string }.

Record SiweParams := mkSiweParams {
  uri : string;
  siwe_expiration : string;
  resources : list ResourceAbilityRequest;
  walletAddress : string;
  nonce : string
}.

(** [PKPEthersWallet]: the public key it signs for and the session
    properties it was built with; [authSigner] is the master wallet that
    the [authNeededCallback] closure signs with. *)
Record PKPEthersWallet := mkPKPEthersWallet {
  pkpPubKey : string;
  sessionChain : string;
  expiration : string;
  resourceAbilityRequests : list ResourceAbilityRequest;
  authSigner : Wallet
}.

(** [string | BigNumber] *)
Inductive BigNumberish :=
| OfString (s : string)
| BigNumber (n : Z).

(** The object [txRequest] built by [signTransaction]. *)
Module TxRequest.
Record t := mk {
  to : string;
  data : option string;
  chainId : option Z;
  gasLimit : Z;
  gasPrice : BigNumberish;
  value : string
}.
End TxRequest.

Record MintInfo := mkMintInfo { minted_pkp : PKPData.t }.

(** Requests that leave the process for the Lit network. *)
Inductive Request :=
| ReqLatestBlockhash
| ReqMintWithAuth (authMethod : AuthMethod) (scopes : list AuthMethodScope)
| ReqSignMessage (wallet : PKPEthersWallet) (message : string)
| ReqSignTypedData (wallet : PKPEthersWallet) (domain : EIP712Domain.t)
    (types : EIP712Types) (value : Json)
| ReqSignTransaction (wallet : PKPEthersWallet) (txRequest : TxRequest.t).

(** The network, with a state of its own that each call may change. *)
Class LitNetwork (Net : Type) := {
  getLatestBlockhash : Net -> Outcome string * Net;
  mintWithAuth : AuthMethod -> list AuthMethodScope -> Net -> Outcome MintInfo * Net;
  wallet_signMessage : PKPEthersWallet -> string -> Net -> Outcome string * Net;
  wallet_signTypedData :
    PKPEthersWallet -> EIP712Domain.t -> EIP712Types -> Json -> Net ->
    Outcome string * Net;
  wallet_signTransaction : PKPEthersWallet -> TxRequest.t -> Net -> Outcome string * Net
}.

(** Local helpers of the SDK and of the runtime. *)
Class AuthHelpers := {
  toISOString : Z -> string;
  createSiweMessageWithRecaps : SiweParams -> Outcome string;
  generateAuthSig : Wallet -> string -> Outcome AuthSig
}.

(** [new PKPEthersWallet({...})], given the Lit client and the other
    properties: the constructor throws (on a public key it rejects, for
    one), or yields the wallet that holds the properties it was
    given. *)
Class PKPEthers := {
  PKPEthersWallet_new : LitNodeClient -> PKPEthersWallet -> Outcome unit
}.

(** [ethers.utils]: signer recovery. *)
Class Ethers := {
  verifyMessage : string -> string -> Outcome string;
  verifyTypedData : EIP712Domain.t -> EIP712Types -> Json -> string -> Outcome string
}.

(** [ethers.utils.parseUnits(amount, "gwei")] on a whole amount. *)
Definition gwei : Z := 10 ^ 9.
Definition parseUnits_gwei (amount : Z) : BigNumberish := BigNumber (amount * gwei).

(** The world an operation runs in. *)
Record World (Net : Type) := mkWorld {
  disk : Disk;
  net : Net;
  requests : list Request;
  clock : Z
}.
Arguments mkWorld {Net}.
Arguments disk {Net}.
Arguments net {Net}.
Arguments requests {Net}.
Arguments clock {Net}.

(* ================================================================= *)
(** ** The manager *)

Record PKPWalletManager := mkManager {
  privateKey : string;
  network : string;
  dataFile : string;
  litClient : option LitNodeClient;
  contractClient : option LitContracts;
  masterWallet : option Wallet
}.

(** The constructor: [network] defaults to [LIT_NETWORK.DatilTest] and
    [dataFile] to [user-pkps.json] next to the sources; the three
    handles start as [null]. *)
Definition new_PKPWalletManager (privateKey : string)
    (network dataFile : option string) : PKPWalletManager :=
  mkManager privateKey
    (match network with Some n => n | None => "datil-test" end)
    (match dataFile with
     | Some f => if truthy_string f then f else "../user-pkps.json"
     | None => "../user-pkps.json"
     end)
    None None None.

Section Manager.

Context {Net : Type} `{LitNetwork Net} `{AuthHelpers} `{PKPEthers}.

(** *** Computations: world passing with exceptions *)

Definition M (A : Type) : Type := World Net -> Result A * World Net.

Definition ret {A} (a : A) : M A := fun w => (Ok a, w).

Definition throw {A} (e : Error) : M A := fun w => (Err e, w).

Definition bind {A B} (c : M A) (k : A -> M B) : M B :=
  fun w =>
    match c w with
    | (Ok a, w') => k a w'
    | (Err e, w') => (Err e, w')
    end.

(** [try { c } catch (err) { h err }] *)
Definition try_catch {A} (c : M A) (h : Error -> M A) : M A :=
  fun w =>
    match c w with
    | (Ok a, w') => (Ok a, w')
    | (Err e, w') => h e w'
    end.

Notation "x <- c ;; k" := (bind c (fun x => k))
  (at level 100, c at next level, right associativity).
Notation "c ;;; k" := (bind c (fun _ => k))
  (at level 100, right associativity).

Definition lift_result {A} (r : Result A) : M A := fun w => (r, w).

Definition lift_outcome {A} (o : Outcome A) : M A :=
  fun w =>
    match o with
    | Returns a => (Ok a, w)
    | Throws message => (Err (Upstream message), w)
    end.

(** A call that goes out to the network: it is logged, and the network
    moves to its next state whether the call returns or throws. *)
Definition request {A} (r : Request) (call : Net -> Outcome A * Net) : M A :=
  fun w =>
    let (o, net') := call (net w) in
    let w' := mkWorld (disk w) net' (requests w ++ [r]) (clock w) in
    match o with
    | Returns a => (Ok a, w')
    | Throws message => (Err (Upstream message), w')
    end.

(** [Date.now()] *)
Definition Date_now : M Z := fun w => (Ok (clock w), w).

(** *** File system *)

Definition existsSync : M bool :=
  fun w =>
    match file (disk w) with
    | FileAbsent => (Ok false, w)
    | _ => (Ok true, w)
    end.

(** [JSON.parse(fs.readFileSync(this.dataFile, "utf8"))] *)
Definition readFileSync_parse : M (list UserPKPData.t) :=
  fun w =>
    match file (disk w) with
    | FileJson records => (Ok records, w)
    | _ => (Err FsError, w)
    end.

(** [fs.writeFileSync(this.dataFile, JSON.stringify(userPKPs, null, 2))] *)
Definition writeFileSync (userPKPs : list UserPKPData.t) : M unit :=
  fun w =>
    let d := disk w in
    let attempted content :=
      mkWorld (mkDisk content (write_fails d) (S (writes d)))
        (net w) (requests w) (clock w) in
    if write_fails d (writes d)
    then (Err FsError, attempted (file d))
    else (Ok tt, attempted (FileJson userPKPs)).

(** *** PKP data management *)

Definition loadUserPKPs : M (list UserPKPData.t) :=
  try_catch
    (present <- existsSync ;;
     if (present : bool) then readFileSync_parse else ret [])
    (fun _ => ret []).

Definition saveUserPKPs (userPKPs : list UserPKPData.t) : M unit :=
  try_catch (writeFileSync userPKPs) (fun _ => ret tt).

Definition findUserPKP (userId : string) : M (option UserPKPData.t) :=
  userPKPs <- loadUserPKPs ;;
  ret (Array_find
         (fun item => String.eqb (UserData.id (UserPKPData.user item)) userId)
         userPKPs).

(** *** Wallet creation *)

Definition createWallet (this : PKPWalletManager) (userData : UserData.t)
  : M PKPData.t :=
  match litClient this, contractClient this, masterWallet this with
  | Some _, Some _, Some master =>
      existing <- findUserPKP (UserData.id userData) ;;
      match existing with
      | Some existing => ret (UserPKPData.pkp existing)
      | None =>
          let resourceAbilities :=
            [ (LitActionResource "*", LitActionExecution) ] in
          now <- Date_now ;;
          blockhash <- request ReqLatestBlockhash getLatestBlockhash ;;
          toSign <- lift_outcome
            (createSiweMessageWithRecaps
               (mkSiweParams "https://your-app.com" (toISOString (now + 600000))
                  resourceAbilities (address master) blockhash)) ;;
          authSig <- lift_outcome (generateAuthSig master toSign) ;;
          let authMethod := mkAuthMethod EthWallet authSig in
          let scopes := [ SignAnything; PersonalSign ] in
          mintInfo <- request (ReqMintWithAuth authMethod scopes)
                        (mintWithAuth authMethod scopes) ;;
          userPKPs <- loadUserPKPs ;;
          created <- Date_now ;;
          let newUserPKP :=
            UserPKPData.mk userData (minted_pkp mintInfo) (toISOString created) in
          saveUserPKPs (userPKPs ++ [newUserPKP]) ;;;
          ret (minted_pkp mintInfo)
      end
  | _, _, _ => throw NotInitialized
  end.

(** The part of [createWallet] that talks to the network, from the
    SIWE message to [mintWithAuth], on its own: what [createWallet] runs
    between its lookup and its write to the data file. *)
Definition mint_new_key (master : Wallet) : M MintInfo :=
  let resourceAbilities := [ (LitActionResource "*", LitActionExecution) ] in
  now <- Date_now ;;
  blockhash <- request ReqLatestBlockhash getLatestBlockhash ;;
  toSign <- lift_outcome
    (createSiweMessageWithRecaps
       (mkSiweParams "https://your-app.com" (toISOString (now + 600000))
          resourceAbilities (address master) blockhash)) ;;
  authSig <- lift_outcome (generateAuthSig master toSign) ;;
  let authMethod := mkAuthMethod EthWallet authSig in
  let scopes := [ SignAnything; PersonalSign ] in
  request (ReqMintWithAuth authMethod scopes) (mintWithAuth authMethod scopes).

(** *** Wallet instance creation *)

(** The properties [getWallet] hands to [new PKPEthersWallet]: the
    stored public key, and the session chain, expiration, resource
    abilities and signer of [authContext.getSessionSigsProps]. *)
Definition wallet_properties (master : Wallet) (userPKP : UserPKPData.t)
    (chainName : string) (now : Z) : PKPEthersWallet :=
  mkPKPEthersWallet
    (PKPData.publicKey (UserPKPData.pkp userPKP))
    (toLowerCase chainName)
    (toISOString (now + 60000 * 60))
    [ (LitPKPResource (PKPData.tokenId (UserPKPData.pkp userPKP)), PKPSigning);
      (LitActionResource "*", LitActionExecution) ]
    master.

Definition getWallet (this : PKPWalletManager) (userId chain : string)
  : M PKPEthersWallet :=
  match litClient this, masterWallet this with
  | Some client, Some master =>
      userPKP <- findUserPKP userId ;;
      match userPKP with
      | None => throw (NoPKPFound userId)
      | Some userPKP =>
          chainConfig <- lift_result (getChainConfig chain) ;;
          match Property_name chainConfig with
          | None => throw (TypeError "chainConfig.name.toLowerCase")
          | Some chainName =>
              now <- Date_now ;;
              let pkpWallet := wallet_properties master userPKP chainName now in
              lift_outcome (PKPEthersWallet_new client pkpWallet) ;;;
              ret pkpWallet
          end
      end
  | _, _ => throw NotInitialized
  end.

(** *** Signing methods *)

Definition or_default {A} (o : option A) (d : A) : A :=
  match o with Some a => a | None => d end.

Definition signMessage (this : PKPWalletManager) (userId message : string)
    (options : SignMessageOptions.t) : M string :=
  let chain := or_default (SignMessageOptions.chain options) "datil" in
  let messageType := or_default (SignMessageOptions.messageType options) plain in
  wallet <- getWallet this userId chain ;;
  match messageType with
  | plain | eip191 =>
      request (ReqSignMessage wallet message) (wallet_signMessage wallet message)
  | _ => throw (UnsupportedMessageType messageType)
  end.

Definition signTypedData (this : PKPWalletManager) (userId : string)
    (domain : EIP712Domain.t) (types : EIP712Types) (value : Json)
    (chain : string) : M string :=
  wallet <- getWallet this userId chain ;;
  request (ReqSignTypedData wallet domain types value)
    (wallet_signTypedData wallet domain types value).

(** The object literal [{ ...transaction, chainId, gasLimit, gasPrice,
    value }]: [to] and [data] come from the spread, the other four
    fields are set after it. *)
Definition build_txRequest (transaction : TransactionRequest.t)
    (chainConfig : Property) : TxRequest.t :=
  TxRequest.mk
    (TransactionRequest.to transaction)
    (TransactionRequest.data transaction)
    (Property_chainId chainConfig)
    (match TransactionRequest.gasLimit transaction with
     | Some g => if truthy_number g then g else 21000
     | None => 21000
     end)
    (match TransactionRequest.gasPrice transaction with
     | Some p => if truthy_string p then OfString p else parseUnits_gwei 20
     | None => parseUnits_gwei 20
     end)
    (match TransactionRequest.value transaction with
     | Some v => if truthy_string v then v else "0"
     | None => "0"
     end).

Definition signTransaction (this : PKPWalletManager) (userId : string)
    (transaction : TransactionRequest.t) (chain : string) : M string :=
  wallet <- getWallet this userId chain ;;
  chainConfig <- lift_result (getChainConfig chain) ;;
  let txRequest := build_txRequest transaction chainConfig in
  request (ReqSignTransaction wallet txRequest)
    (wallet_signTransaction wallet txRequest).

End Manager.

(* ================================================================= *)
(** ** Verification utilities *)

Section Verification.

Context `{Ethers}.

(** [try { ... } catch { return false; }] around a call into ethers. *)
Definition try_pure {A} (c : Result A) (h : Error -> Result A) : Result A :=
  match c with
  | Ok a => Ok a
  | Err e => h e
  end.

Definition outcome_result {A} (o : Outcome A) : Result A :=
  match o with
  | Returns a => Ok a
  | Throws message => Err (Upstream message)
  end.

Definition map_result {A B} (f : A -> B) (r : Result A) : Result B :=
  match r with
  | Ok a => Ok (f a)
  | Err e => Err e
  end.

Definition verifySignature (message signature expectedAddress : string)
  : Result bool :=
  try_pure
    (map_result
       (fun recoveredAddress =>
          String.eqb (toLowerCase recoveredAddress) (toLowerCase expectedAddress))
       (outcome_result (verifyMessage message signature)))
    (fun _ => Ok false).

Definition verifyTypedDataSignature (domain : EIP712Domain.t)
    (types : EIP712Types) (value : Json) (signature expectedAddress : string)
  : Result bool :=
  try_pure
    (map_result
       (fun recoveredAddress =>
          String.eqb (toLowerCase recoveredAddress) (toLowerCase expectedAddress))
       (outcome_result (verifyTypedData domain types value signature)))
    (fun _ => Ok false).

End Verification.

(** *** Case-insensitive comparison, stated on its own

    Two strings are equal up to case when they have the same length and
    agree position by position, where two characters agree if they are
    equal or are the upper-case and lower-case form of one letter. *)
Definition is_upper (c : ascii) : bool :=
  let n := N_of_ascii c in andb (N.leb 65 n) (N.leb n 90).

Definition same_letter (a b : ascii) : bool :=
  Ascii.eqb a b
  || (is_upper a && N.eqb (N_of_ascii b) (N_of_ascii a + 32))
  || (is_upper b && N.eqb (N_of_ascii a) (N_of_ascii b + 32)).

Fixpoint equal_ignoring_case (s t : string) : bool :=
  match s, t with
  | EmptyString, EmptyString => true
  | String a s', String b t' => same_letter a b && equal_ignoring_case s' t'
  | _, _ => false
  end.

Definition all_ascii : list ascii := map ascii_of_nat (seq 0 256).

(* ================================================================= *)
(** ** Stored bindings and sequences of operations *)

Definition user_id (binding : UserPKPData.t) : string :=
  UserData.id (UserPKPData.user binding).

(** The bindings the manager sees in a data file. *)
Definition stored_in (d : Disk) : list UserPKPData.t :=
  match file d with
  | FileJson records => records
  | _ => []
  end.

Definition stored {Net} (w : World Net) : list UserPKPData.t := stored_in (disk w).

(** The binding a lookup by exact id selects among [records]. *)
Definition lookup (userId : string) (records : list UserPKPData.t)
  : option UserPKPData.t :=
  Array_find (fun item => String.eqb (user_id item) userId) records.

(** At most one binding per user id. *)
Definition unique_user_ids (records : list UserPKPData.t) : Prop :=
  NoDup (map user_id records).

(** The guards at the head of [getWallet] and of [createWallet]. *)
Definition ready_to_sign (this : PKPWalletManager) : bool :=
  match litClient this, masterWallet this with
  | Some _, Some _ => true
  | _, _ => false
  end.

Definition ready_to_issue (this : PKPWalletManager) : bool :=
  match litClient this, contractClient this, masterWallet this with
  | Some _, Some _, Some _ => true
  | _, _, _ => false
  end.

(** Calls a client makes one after the other; a call that throws is
    caught by the client, which goes on with the next one. *)
Inductive Operation :=
| OpCreateWallet (userData : UserData.t)
| OpGetWallet (userId chain : string)
| OpSignMessage (userId message : string) (options : SignMessageOptions.t)
| OpSignTypedData (userId : string) (domain : EIP712Domain.t)
    (types : EIP712Types) (value : Json) (chain : string)
| OpSignTransaction (userId : string) (transaction : TransactionRequest.t)
    (chain : string).

Section Sequences.

Context {Net : Type} `{LitNetwork Net} `{AuthHelpers} `{PKPEthers}.

Definition perform (this : PKPWalletManager) (op : Operation) (w : World Net)
  : World Net :=
  match op with
  | OpCreateWallet userData => snd (createWallet this userData w)
  | OpGetWallet userId chain => snd (getWallet this userId chain w)
  | OpSignMessage userId message options =>
      snd (signMessage this userId message options w)
  | OpSignTypedData userId domain types value chain =>
      snd (signTypedData this userId domain types value chain w)
  | OpSignTransaction userId transaction chain =>
      snd (signTransaction this userId transaction chain w)
  end.

Fixpoint run (this : PKPWalletManager) (ops : list Operation) (w : World Net)
  : World Net :=
  match ops with
  | [] => w
  | op :: rest => run this rest (perform this op w)
  end.

End Sequences.

(* ================================================================= *)
(** ** Initialization and utility methods *)

(** [ethers.providers.JsonRpcProvider] *)
Record JsonRpcProvider := mkJsonRpcProvider { providerUrl : string }.

(** What [initialize] builds and connects: the constructors of ethers
    and of the Lit SDK, any of which may throw, and the two [connect]
    calls, which go out to the network. *)
Class LitConnection (Net : Type) := {
  JsonRpcProvider_new : string -> Outcome JsonRpcProvider;
  Wallet_new : string -> JsonRpcProvider -> Outcome Wallet;
  LitNodeClient_new : string -> Outcome LitNodeClient;
  LitNodeClient_connect : LitNodeClient -> Net -> Outcome unit * Net;
  LitContracts_new : Wallet -> string -> Outcome LitContracts;
  LitContracts_connect : LitContracts -> Net -> Outcome unit * Net
}.

(** The reads a [PKPEthersWallet] serves through its RPC provider, and
    [ethers.utils.formatEther]. *)
Class WalletRpc (Net : Type) := {
  wallet_getAddress : PKPEthersWallet -> Net -> Outcome string * Net;
  wallet_getBalance : PKPEthersWallet -> Net -> Outcome Z * Net;
  wallet_getTransactionCount : PKPEthersWallet -> Net -> Outcome Z * Net;
  formatEther : Z -> string
}.

(** The object [getWalletInfo] returns; [chainId] is read off whatever
    [getChainConfig] returned and is [undefined] ([None]) when that has
    no such property. *)
Module WalletInfo.
Record t := mk {
  address : string;
  balance : string;
  nonce : Z;
  chainId : option Z
}.
End WalletInfo.

(** How [initialize] ends: it returns, it throws its own
    ["Private key is required"], or it propagates what a constructor or
    a [connect] threw. *)
Inductive InitError :=
| PrivateKeyRequired
| InitThrown (message : string).

(** Assignments to the three handles of [this]. *)
Definition set_masterWallet (this : PKPWalletManager) (wallet : Wallet)
  : PKPWalletManager :=
  mkManager (privateKey this) (network this) (dataFile this)
    (litClient this) (contractClient this) (Some wallet).

Definition set_litClient (this : PKPWalletManager) (client : LitNodeClient)
  : PKPWalletManager :=
  mkManager (privateKey this) (network this) (dataFile this)
    (Some client) (contractClient this) (masterWallet this).

Definition set_contractClient (this : PKPWalletManager) (contracts : LitContracts)
  : PKPWalletManager :=
  mkManager (privateKey this) (network this) (dataFile this)
    (litClient this) (Some contracts) (masterWallet this).

Section Utilities.

Context {Net : Type} `{LitNetwork Net} `{AuthHelpers} `{PKPEthers}
  `{LitConnection Net} `{WalletRpc Net}.

(** A [connect] call: the network moves on whether it returns or
    throws. *)
Definition connect (call : Net -> Outcome unit * Net) (w : World Net)
  : Outcome unit * World Net :=
  let (o, net') := call (net w) in
  (o, mkWorld (disk w) net' (requests w) (clock w)).

(** [initialize()].  Each handle is assigned as soon as its object is
    built, before the [connect] that follows; the result is the outcome,
    the manager as the call leaves it, and the world. *)
Definition initialize (this : PKPWalletManager) (w : World Net)
  : option InitError * PKPWalletManager * World Net :=
  if negb (truthy_string (privateKey this)) then
    (Some PrivateKeyRequired, this, w)
  else
    match own_property SUPPORTED_CHAINS "datil" with
    | None => (Some (InitThrown "SUPPORTED_CHAINS.datil is undefined"), this, w)
    | Some datil =>
        match JsonRpcProvider_new (ChainConfig.rpcUrl datil) with
        | Throws message => (Some (InitThrown message), this, w)
        | Returns provider =>
            match Wallet_new (privateKey this) provider with
            | Throws message => (Some (InitThrown message), this, w)
            | Returns wallet =>
                let this1 := set_masterWallet this wallet in
                match LitNodeClient_new (network this1) with
                | Throws message => (Some (InitThrown message), this1, w)
                | Returns client =>
                    let this2 := set_litClient this1 client in
                    match connect (LitNodeClient_connect client) w with
                    | (Throws message, w1) =>
                        (Some (InitThrown message), this2, w1)
                    | (Returns _, w1) =>
                        match LitContracts_new wallet (network this2) with
                        | Throws message =>
                            (Some (InitThrown message), this2, w1)
                        | Returns contracts =>
                            let this3 := set_contractClient this2 contracts in
                            match connect (LitContracts_connect contracts) w1 with
                            | (Throws message, w2) =>
                                (Some (InitThrown message), this3, w2)
                            | (Returns _, w2) => (None, this3, w2)
                            end
                        end
                    end
                end
            end
        end
    end.

(** A read through the wallet's RPC provider. *)
Definition rpc {A} (call : Net -> Outcome A * Net) : @M Net A :=
  fun w =>
    let (o, net') := call (net w) in
    let w' := mkWorld (disk w) net' (requests w) (clock w) in
    match o with
    | Returns a => (Ok a, w')
    | Throws message => (Err (Upstream message), w')
    end.

(** [getWalletInfo(userId, chain)] *)
Definition getWalletInfo (this : PKPWalletManager) (userId chain : string)
  : @M Net WalletInfo.t :=
  bind (getWallet this userId chain) (fun wallet =>
  bind (lift_result (getChainConfig chain)) (fun chainConfig =>
  bind (rpc (wallet_getAddress wallet)) (fun address =>
  bind (rpc (wallet_getBalance wallet)) (fun balance =>
  bind (rpc (wallet_getTransactionCount wallet)) (fun nonce =>
  ret (WalletInfo.mk address (formatEther balance) nonce
         (Property_chainId chainConfig))))))).

(** [listUserWallets()] *)
Definition listUserWallets : @M Net (list UserPKPData.t) := loadUserPKPs.

End Utilities.

(** Counting the minting requests of a log, and the [createWallet]
    calls of a sequence. *)
Definition is_mint (r : Request) : bool :=
  match r with
  | ReqMintWithAuth _ _ => true
  | _ => false
  end.

Definition mints (log : list Request) : nat := length (filter is_mint log).

Definition is_createWallet (op : Operation) : bool :=
  match op with
  | OpCreateWallet _ => true
  | _ => false
  end.

(** Whether a chain name resolves to something with a [name]: an entry
    of the table, or an inherited function. *)
Definition chain_resolves (chain : string) : bool :=
  match get_property SUPPORTED_CHAINS chain with
  | Some config =>
      match Property_name config with
      | Some _ => true
      | None => false
      end
  | None => false
  end.

Definition is_some {A} (o : option A) : bool :=
  match o with
  | Some _ => true
  | None => false
  end.

(* ================================================================= *)
(** ** A concrete world, for examples

    A network that numbers the keys it mints: its state is the count of
    keys minted so far, and every call returns. *)

Fixpoint tally (n : nat) : string :=
  match n with
  | O => ""
  | S k => String "I" (tally k)
  end.

Definition numbered_pkp (n : nat) : PKPData.t :=
  PKPData.mk ("token-" ++ tally n) ("04-" ++ tally n) ("0x-" ++ tally n).

Definition CountingNet : LitNetwork nat := {|
  getLatestBlockhash := fun n => (Returns "0xblock", n);
  mintWithAuth := fun _ _ n => (Returns (mkMintInfo (numbered_pkp n)), S n);
  wallet_signMessage := fun _ _ n => (Returns "0xsignature", n);
  wallet_signTypedData := fun _ _ _ _ n => (Returns "0xsignature", n);
  wallet_signTransaction := fun _ _ n => (Returns "0xsignedtx", n)
|}.

Definition PlainHelpers : AuthHelpers := {|
  toISOString := fun _ => "1970-01-01T00:00:00.000Z";
  createSiweMessageWithRecaps :=
    fun p => Returns (walletAddress p ++ " wants to sign in");
  generateAuthSig := fun wallet toSign => Returns ("sig:" ++ toSign)
|}.

(** A recovery that accepts one signature only and throws on the rest. *)
Definition OneSigner : Ethers := {|
  verifyMessage := fun message signature =>
    if String.eqb signature "0xsignature" then Returns "0xAbCd"
    else Throws "invalid signature";
  verifyTypedData := fun _ _ _ signature =>
    if String.eqb signature "0xsignature" then Returns "0xAbCd"
    else Throws "invalid signature"
|}.

Definition master : Wallet := mkWallet "0xmaster".

(** A manager on which [initialize] has not run. *)
Definition fresh_manager : PKPWalletManager :=
  new_PKPWalletManager "0xkey" None None.

Definition initialized_manager : PKPWalletManager :=
  mkManager "0xkey" "datil-test" "../user-pkps.json"
    (Some (mkLitNodeClient "datil-test"))
    (Some (mkLitContracts master "datil-test"))
    (Some master).

Definition alice : UserData.t := UserData.mk "alice" "Alice" "alice@example.com".
Definition bob : UserData.t := UserData.mk "bob" "Bob" "bob@example.com".

Definition alice_binding : UserPKPData.t :=
  UserPKPData.mk alice (numbered_pkp 7) "2024-01-01T00:00:00.000Z".

(** File systems: one where every write goes through, one that refuses
    every write. *)
Definition writable : nat -> bool := fun _ => false.
Definition read_only : nat -> bool := fun _ => true.

Definition empty_world : World nat :=
  mkWorld (mkDisk FileAbsent writable O) O [] 0.

(** The data file holds Alice's binding. *)
Definition alice_world : World nat :=
  mkWorld (mkDisk (FileJson [alice_binding]) writable O) 8%nat [] 0.

(** No data file yet, on a file system that refuses every write. *)
Definition failing_disk_world : World nat :=
  mkWorld (mkDisk FileAbsent read_only O) O [] 0.

(** The world after Alice's key was minted while the disk refused the
    write. *)
Definition after_failed_write : World nat :=
  snd (@createWallet nat CountingNet PlainHelpers initialized_manager alice
         failing_disk_world).

(** A network that answers every request except minting, which it
    refuses. *)
Definition RefusingNet : LitNetwork nat := {|
  getLatestBlockhash := fun n => (Returns "0xblock", n);
  mintWithAuth := fun _ _ n => (Throws "mint refused", S n);
  wallet_signMessage := fun _ _ n => (Returns "0xsignature", n);
  wallet_signTypedData := fun _ _ _ _ n => (Returns "0xsignature", n);
  wallet_signTransaction := fun _ _ n => (Returns "0xsignedtx", n)
|}.

(** Start-up in which everything is built and both connections are
    made, and one in which the contracts refuse the connection. *)
Definition GoodConnection : LitConnection nat := {|
  JsonRpcProvider_new := fun url => Returns (mkJsonRpcProvider url);
  Wallet_new := fun _ _ => Returns master;
  LitNodeClient_new := fun network => Returns (mkLitNodeClient network);
  LitNodeClient_connect := fun _ n => (Returns tt, n);
  LitContracts_new := fun wallet network => Returns (mkLitContracts wallet network);
  LitContracts_connect := fun _ n => (Returns tt, n)
|}.

Definition ContractsDown : LitConnection nat := {|
  JsonRpcProvider_new := fun url => Returns (mkJsonRpcProvider url);
  Wallet_new := fun _ _ => Returns master;
  LitNodeClient_new := fun network => Returns (mkLitNodeClient network);
  LitNodeClient_connect := fun _ n => (Returns tt, n);
  LitContracts_new := fun wallet network => Returns (mkLitContracts wallet network);
  LitContracts_connect := fun _ n => (Throws "contracts unreachable", n)
|}.

Definition FixedRpc : WalletRpc nat := {|
  wallet_getAddress := fun _ n =>
    (Returns "0x7E5F4552091A69125d5DfCb7b8C2659029395Bdf", n);
  wallet_getBalance := fun _ n => (Returns 1500000000000000000, n);
  wallet_getTransactionCount := fun _ n => (Returns 3, n);
  formatEther := fun wei => if wei =? 1500000000000000000 then "1.5" else "0.0"
|}.

(** The data file exists but does not parse. *)
Definition corrupt_file_world : World nat :=
  mkWorld (mkDisk FileUnreadable writable O) O [] 0.

Definition bob_binding : UserPKPData.t :=
  UserPKPData.mk bob (numbered_pkp 2) "2024-02-02T00:00:00.000Z".

(** A wallet constructor that checks the form of the public key, 130
    hexadecimal digits that begin with 04, with or without a leading
    0x, and throws on every other string. *)
Definition is_hex_digit (c : ascii) : bool :=
  let n := N_of_ascii c in
  (N.leb 48 n && N.leb n 57) || (N.leb 65 n && N.leb n 70)
  || (N.leb 97 n && N.leb n 102).

Fixpoint all_hex (s : string) : bool :=
  match s with
  | EmptyString => true
  | String c rest => is_hex_digit c && all_hex rest
  end.

Definition strip_0x (s : string) : string :=
  match s with
  | String "0" (String "x" rest) => rest
  | _ => s
  end.

Definition well_formed_public_key (key : string) : bool :=
  let digits := strip_0x key in
  Nat.eqb (String.length digits) 130 && String.prefix "04" digits
  && all_hex digits.

Definition CheckingWallets : PKPEthers := {|
  PKPEthersWallet_new := fun _ wallet =>
    if well_formed_public_key (pkpPubKey wallet) then Returns tt
    else Throws "Invalid public key"
|}.

(** Keys on the curve: the uncompressed public keys of the secp256k1
    private keys 1, 2 and 3, with their addresses. *)
Definition curve_pkp_1 : PKPData.t :=
  PKPData.mk "0x01"
    "0479be667ef9dcbbac55a06295ce870b07029bfcdb2dce28d959f2815b16f81798483ada7726a3c4655da4fbfc0e1108a8fd17b448a68554199c47d08ffb10d4b8"
    "0x7E5F4552091A69125d5DfCb7b8C2659029395Bdf".

Definition curve_pkp_2 : PKPData.t :=
  PKPData.mk "0x02"
    "04c6047f9441ed7d6d3045406e95c07cd85c778e4b8cef3ca7abac09b95c709ee51ae168fea63dc339a3c58419466ceaeef7f632653266d0e1236431a950cfe52a"
    "0x2B5AD5c4795c026514f8317c7a215E218DcCD6cF".

Definition curve_pkp_3 : PKPData.t :=
  PKPData.mk "0x03"
    "04f9308a019258c31049344f85f89d5229b531c845836f99b08601f113bce036f9388f7b0f632de8140fe337e62a37f3566500a99934c2231b6cb9fd7584b8e672"
    "0x6813Eb9362372EEF6200f3b1dbC3f819671cBA69".

(** A network that mints keys on the curve: key 2 first, key 3 after. *)
Definition CurveNet : LitNetwork nat := {|
  getLatestBlockhash := fun n => (Returns "0xblock", n);
  mintWithAuth := fun _ _ n =>
    (Returns (mkMintInfo (match n with O => curve_pkp_2 | S _ => curve_pkp_3 end)),
     S n);
  wallet_signMessage := fun _ _ n => (Returns "0xsignature", n);
  wallet_signTypedData := fun _ _ _ _ n => (Returns "0xsignature", n);
  wallet_signTransaction := fun _ _ n => (Returns "0xsignedtx", n)
|}.

Definition carol : UserData.t := UserData.mk "carol" "Carol" "carol@example.com".

Definition carol_binding : UserPKPData.t :=
  UserPKPData.mk carol curve_pkp_1 "2024-03-03T00:00:00.000Z".

(** The data file holds Carol's binding, for a key on the curve. *)
Definition carol_world : World nat :=
  mkWorld (mkDisk (FileJson [carol_binding]) writable O) 1%nat [] 0.

(** A data file with a binding for Bob followed by two for Alice. *)
Definition alice_later : UserPKPData.t :=
  UserPKPData.mk alice (numbered_pkp 9) "2025-01-01T00:00:00.000Z".

Definition duplicates_world : World nat :=
  mkWorld (mkDisk (FileJson [bob_binding; alice_binding; alice_later]) writable O)
    10%nat [] 0.

(* ================================================================= *)
(** ** Properties of the registry and of the signing facade *)

Section Properties.

Context {Net : Type} `{LitNetwork Net} `{AuthHelpers} `{PKPEthers}.

(** *** The registry *)

Lemma loadUserPKPs_stored (w : World Net) :
  loadUserPKPs w = (Ok (stored w), w).
Proof.
  unfold loadUserPKPs, try_catch, bind, existsSync, readFileSync_parse, ret,
    stored, stored_in.
  destruct (file (disk w)) eqn:Hfile; cbv beta iota; rewrite ?Hfile; reflexivity.
Qed.

Lemma findUserPKP_lookup (userId : string) (w : World Net) :
  findUserPKP userId w = (Ok (lookup userId (stored w)), w).
Proof.
  unfold findUserPKP, bind. rewrite loadUserPKPs_stored. reflexivity.
Qed.

Lemma lookup_some (userId : string) (records : list UserPKPData.t)
    (binding : UserPKPData.t) :
  lookup userId records = Some binding ->
  exists before after,
    records = (before ++ binding :: after)%list
    /\ user_id binding = userId
    /\ Forall (fun other => user_id other <> userId) before.
Proof.
  unfold lookup.
  induction records as [| first rest IH]; simpl; intros Hfind.
  - discriminate.
  - destruct (String.eqb (user_id first) userId) eqn:Hid.
    + injection Hfind as <-. apply String.eqb_eq in Hid.
      exists [], rest. repeat split; auto.
    + destruct (IH Hfind) as (before & after & -> & Hsame & Hbefore).
      apply String.eqb_neq in Hid.
      exists (first :: before), after. repeat split; auto.
Qed.

Lemma lookup_none (userId : string) (records : list UserPKPData.t) :
  lookup userId records = None ->
  Forall (fun other => user_id other <> userId) records.
Proof.
  unfold lookup.
  induction records as [| first rest IH]; simpl; intros Hfind.
  - constructor.
  - destruct (String.eqb (user_id first) userId) eqn:Hid; [discriminate |].
    apply String.eqb_neq in Hid. constructor; auto.
Qed.

Lemma lookup_app_new (userId : string) (records : list UserPKPData.t)
    (binding : UserPKPData.t) :
  lookup userId records = None ->
  user_id binding = userId ->
  lookup userId (records ++ [binding])%list = Some binding.
Proof.
  unfold lookup.
  induction records as [| first rest IH]; simpl; intros Hfind Hid.
  - rewrite <- Hid, String.eqb_refl. reflexivity.
  - destruct (String.eqb (user_id first) userId); [discriminate | auto].
Qed.

(** C7. Lookup in a store that holds a sequence of bindings returns the
    first binding of the sequence whose user id is exactly the queried
    string, and reports absence exactly when no binding has that id; the
    lookup always returns and leaves the world as it was. *)
Theorem findUserPKP_first_exact_match
    (w : World Net) (records : list UserPKPData.t) (userId : string) :
  file (disk w) = FileJson records ->
  exists found,
    findUserPKP userId w = (Ok found, w)
    /\ match found with
       | Some binding =>
           exists before after,
             records = (before ++ binding :: after)%list
             /\ user_id binding = userId
             /\ Forall (fun other => user_id other <> userId) before
       | None => Forall (fun other => user_id other <> userId) records
       end.
Proof.
  intros Hfile.
  exists (lookup userId records). split.
  - rewrite findUserPKP_lookup. unfold stored, stored_in. rewrite Hfile.
    reflexivity.
  - destruct (lookup userId records) as [binding |] eqn:Hfind.
    + apply lookup_some; assumption.
    + apply lookup_none; assumption.
Qed.

(** A data file that is missing or cannot be parsed is an empty store. *)
Lemma findUserPKP_no_file (w : World Net) (userId : string) :
  file (disk w) = FileAbsent \/ file (disk w) = FileUnreadable ->
  findUserPKP userId w = (Ok None, w).
Proof.
  intros Hfile. rewrite findUserPKP_lookup. unfold stored, stored_in.
  destruct Hfile as [-> | ->]; reflexivity.
Qed.

(** *** The signing facade *)

(** [getWallet] never touches the world; its result is decided by the
    guard, the lookup and the chain table, in that order. *)
Lemma getWallet_world (this : PKPWalletManager) (userId chain : string)
    (w : World Net) :
  snd (getWallet this userId chain w) = w.
Proof.
  unfold getWallet.
  destruct (litClient this); [| reflexivity].
  destruct (masterWallet this); [| reflexivity].
  unfold bind. rewrite findUserPKP_lookup.
  destruct (lookup userId (stored w)); [| reflexivity].
  unfold lift_result. destruct (getChainConfig chain) as [config | e]; [| reflexivity].
  destruct (Property_name config); [| reflexivity].
  unfold Date_now, lift_outcome.
  destruct (PKPEthersWallet_new _ _); reflexivity.
Qed.

Lemma getWallet_unknown_user (this : PKPWalletManager) (userId chain : string)
    (w : World Net) :
  lookup userId (stored w) = None ->
  getWallet this userId chain w =
    (Err (if ready_to_sign this then NoPKPFound userId else NotInitialized), w).
Proof.
  intros Hnone. unfold getWallet, ready_to_sign.
  destruct (litClient this); [| reflexivity].
  destruct (masterWallet this); [| reflexivity].
  unfold bind. rewrite findUserPKP_lookup, Hnone. reflexivity.
Qed.

Lemma getWallet_known_user (this : PKPWalletManager) (userId chain : string)
    (w : World Net) (binding : UserPKPData.t) (config : ChainConfig.t) :
  lookup userId (stored w) = Some binding ->
  own_property SUPPORTED_CHAINS chain = Some config ->
  getWallet this userId chain w =
    (match litClient this, masterWallet this with
     | Some client, Some master =>
         let pkpWallet :=
           wallet_properties master binding (ChainConfig.name config) (clock w) in
         match PKPEthersWallet_new client pkpWallet with
         | Returns _ => Ok pkpWallet
         | Throws message => Err (Upstream message)
         end
     | _, _ => Err NotInitialized
     end, w).
Proof.
  intros Hbinding Hconfig. unfold getWallet.
  destruct (litClient this); [| reflexivity].
  destruct (masterWallet this); [| reflexivity].
  unfold bind. rewrite findUserPKP_lookup, Hbinding.
  unfold lift_result, getChainConfig, get_property. rewrite Hconfig.
  unfold Date_now, lift_outcome. simpl.
  destruct (PKPEthersWallet_new _ _); reflexivity.
Qed.

Lemma request_world {A} (r : Request) (call : Net -> Outcome A * Net)
    (w : World Net) :
  disk (snd (request r call w)) = disk w
  /\ requests (snd (request r call w)) = (requests w ++ [r])%list.
Proof.
  unfold request. destruct (call (net w)) as [[a | message] net']; split; reflexivity.
Qed.

(** Splits a call of [getWallet] into its result, in the world it was
    called in. *)
Ltac split_getWallet this userId chain w :=
  let r := fresh "wallet" in
  let w' := fresh "w'" in
  let E := fresh "HgetWallet" in
  let W := fresh "Hworld" in
  pose proof (getWallet_world this userId chain w) as W;
  destruct (getWallet this userId chain w) as [r w'] eqn:E;
  simpl in W; subst w'.

(** C3 (amended). For a user id with no stored binding, [getWallet],
    [signMessage], [signTypedData] and [signTransaction] all throw, in
    the very world they were called in: nothing was sent to the network
    and nothing was written.  The condition is not-found on a manager
    whose Lit client and master wallet are set, and not-initialized on
    one where they are not, whose guard comes first. *)
Theorem signing_unknown_user_fails_before_network
    (this : PKPWalletManager) (userId : string) (w : World Net)
    (message : string) (options : SignMessageOptions.t)
    (domain : EIP712Domain.t) (types : EIP712Types) (value : Json)
    (transaction : TransactionRequest.t) (chain : string) :
  lookup userId (stored w) = None ->
  let condition :=
    if ready_to_sign this then NoPKPFound userId else NotInitialized in
  getWallet this userId chain w = (Err condition, w)
  /\ signMessage this userId message options w = (Err condition, w)
  /\ signTypedData this userId domain types value chain w = (Err condition, w)
  /\ signTransaction this userId transaction chain w = (Err condition, w).
Proof.
  intros Hnone condition. subst condition.
  repeat split.
  - apply getWallet_unknown_user; assumption.
  - unfold signMessage, bind. rewrite getWallet_unknown_user by assumption.
    reflexivity.
  - unfold signTypedData, bind. rewrite getWallet_unknown_user by assumption.
    reflexivity.
  - unfold signTransaction, bind. rewrite getWallet_unknown_user by assumption.
    reflexivity.
Qed.

Lemma signMessage_disk (this : PKPWalletManager) (userId message : string)
    (options : SignMessageOptions.t) (w : World Net) :
  disk (snd (signMessage this userId message options w)) = disk w.
Proof.
  unfold signMessage, bind.
  split_getWallet this userId
    (or_default (SignMessageOptions.chain options) "datil") w.
  destruct wallet as [wallet | e]; [| reflexivity].
  destruct (or_default (SignMessageOptions.messageType options) plain);
    solve [apply request_world | reflexivity].
Qed.

Lemma signTypedData_disk (this : PKPWalletManager) (userId : string)
    (domain : EIP712Domain.t) (types : EIP712Types) (value : Json)
    (chain : string) (w : World Net) :
  disk (snd (signTypedData this userId domain types value chain w)) = disk w.
Proof.
  unfold signTypedData, bind.
  split_getWallet this userId chain w.
  destruct wallet as [wallet | e]; [| reflexivity].
  apply request_world.
Qed.

Lemma signTransaction_disk (this : PKPWalletManager) (userId : string)
    (transaction : TransactionRequest.t) (chain : string) (w : World Net) :
  disk (snd (signTransaction this userId transaction chain w)) = disk w.
Proof.
  unfold signTransaction, bind.
  split_getWallet this userId chain w.
  destruct wallet as [wallet | e]; [| reflexivity].
  unfold lift_result.
  destruct (getChainConfig chain) as [config | e]; [| reflexivity].
  apply request_world.
Qed.

(** C8. Whatever the user id, the payload and the chain name, and
    whether the call returns or throws, [signMessage], [signTypedData]
    and [signTransaction] leave the data file exactly as it was. *)
Theorem signing_leaves_store_unchanged
    (this : PKPWalletManager) (userId : string) (w : World Net)
    (message : string) (options : SignMessageOptions.t)
    (domain : EIP712Domain.t) (types : EIP712Types) (value : Json)
    (transaction : TransactionRequest.t) (chain : string) :
  disk (snd (signMessage this userId message options w)) = disk w
  /\ disk (snd (signTypedData this userId domain types value chain w)) = disk w
  /\ disk (snd (signTransaction this userId transaction chain w)) = disk w.
Proof.
  split; [| split].
  - apply signMessage_disk.
  - apply signTypedData_disk.
  - apply signTransaction_disk.
Qed.

(** C9 (amended). [signMessage] with [messageType] set to ["eip712"]
    never reaches the signing path: it throws and leaves the world as it
    was, with no request sent.  It throws the unsupported-message-type
    condition when [getWallet] returns a wallet, and otherwise the
    condition [getWallet] threw (not-initialized, not-found,
    unsupported-chain, or what the wallet constructor threw).  With ["plain"], ["eip191"] or no message type,
    a wallet obtained from [getWallet] is asked to sign the message. *)
Theorem signMessage_eip712_rejected_after_getWallet
    (this : PKPWalletManager) (userId message : string) (chain : option string)
    (w : World Net) :
  let options messageType := SignMessageOptions.mk chain messageType in
  let obtained := fst (getWallet this userId (or_default chain "datil") w) in
  signMessage this userId message (options (Some eip712)) w =
    (match obtained with
     | Ok _ => Err (UnsupportedMessageType eip712)
     | Err e => Err e
     end, w)
  /\ let signing :=
       match obtained with
       | Ok wallet =>
           request (ReqSignMessage wallet message)
             (wallet_signMessage wallet message) w
       | Err e => (Err e, w)
       end in
     signMessage this userId message (options None) w = signing
     /\ signMessage this userId message (options (Some plain)) w = signing
     /\ signMessage this userId message (options (Some eip191)) w = signing.
Proof.
  cbv zeta. unfold signMessage, bind. simpl SignMessageOptions.chain.
  split_getWallet this userId (or_default chain "datil") w.
  simpl. destruct wallet as [wallet | e]; repeat split; reflexivity.
Qed.

(** C10 (amended). For a user id with a binding and a chain name of
    the static table, whenever [signTransaction] forwards a request to
    the signing operation, which it does exactly when [getWallet]
    returns a wallet, that one request is made with the wallet of the
    user's stored public key.  It carries the table's chain id for the
    named chain and the caller's [to] and [data]; its gas limit is
    21000, its gas price 20 gwei and its value ["0"] when the caller
    omits the field or supplies a falsy one (the number 0, the empty
    string), and the caller's value in every other case.  When
    [getWallet] throws, nothing is forwarded. *)
Theorem signTransaction_forwarded_request
    (this : PKPWalletManager) (userId : string)
    (transaction : TransactionRequest.t) (chain : string) (w : World Net)
    (binding : UserPKPData.t) (config : ChainConfig.t) :
  lookup userId (stored w) = Some binding ->
  own_property SUPPORTED_CHAINS chain = Some config ->
  let after := snd (signTransaction this userId transaction chain w) in
  match fst (getWallet this userId chain w) with
  | Ok wallet =>
      exists txRequest,
        requests after = (requests w ++ [ReqSignTransaction wallet txRequest])%list
        /\ pkpPubKey wallet = PKPData.publicKey (UserPKPData.pkp binding)
        /\ TxRequest.chainId txRequest = Some (ChainConfig.chainId config)
        /\ TxRequest.to txRequest = TransactionRequest.to transaction
        /\ TxRequest.data txRequest = TransactionRequest.data transaction
        /\ TxRequest.gasLimit txRequest =
             match TransactionRequest.gasLimit transaction with
             | None => 21000
             | Some supplied => if supplied =? 0 then 21000 else supplied
             end
        /\ TxRequest.gasPrice txRequest =
             match TransactionRequest.gasPrice transaction with
             | None => BigNumber (20 * 10 ^ 9)
             | Some supplied =>
                 if String.eqb supplied "" then BigNumber (20 * 10 ^ 9)
                 else OfString supplied
             end
        /\ TxRequest.value txRequest =
             match TransactionRequest.value transaction with
             | None => "0"
             | Some supplied => if String.eqb supplied "" then "0" else supplied
             end
  | Err _ => requests after = requests w
  end.
Proof.
  intros Hbinding Hconfig after. subst after.
  unfold signTransaction, bind.
  pose proof (getWallet_known_user this userId chain w binding config
                Hbinding Hconfig) as Hknown.
  split_getWallet this userId chain w.
  destruct wallet as [wallet | e]; simpl; [| reflexivity].
  assert (Hkey : pkpPubKey wallet = PKPData.publicKey (UserPKPData.pkp binding)).
  { injection Hknown as Hknown.
    destruct (litClient this) as [client |]; [| discriminate].
    destruct (masterWallet this) as [master |]; [| discriminate].
    cbv zeta in Hknown.
    destruct (PKPEthersWallet_new client _); [| discriminate].
    injection Hknown as ->. reflexivity. }
  unfold lift_result, getChainConfig, get_property. rewrite Hconfig.
  eexists. split; [apply request_world |].
  split; [exact Hkey |].
  unfold build_txRequest, truthy_number, truthy_string, parseUnits_gwei, gwei.
  simpl.
  destruct (TransactionRequest.gasLimit transaction) as [g |];
    destruct (TransactionRequest.gasPrice transaction) as [p |];
    destruct (TransactionRequest.value transaction) as [v |];
    try destruct (g =? 0); try destruct (String.eqb p "");
    try destruct (String.eqb v ""); repeat split; reflexivity.
Qed.

(** *** Key issuance *)

Lemma saveUserPKPs_cases (records : list UserPKPData.t) (w : World Net) :
  exists w',
    saveUserPKPs records w = (Ok tt, w')
    /\ net w' = net w /\ requests w' = requests w /\ clock w' = clock w
    /\ ((write_fails (disk w) (writes (disk w)) = true
         /\ file (disk w') = file (disk w))
        \/ (write_fails (disk w) (writes (disk w)) = false
            /\ file (disk w') = FileJson records)).
Proof.
  unfold saveUserPKPs, try_catch, writeFileSync, ret.
  destruct (write_fails (disk w) (writes (disk w)));
    eexists; (split; [reflexivity |]); simpl; auto 10.
Qed.

Lemma mint_new_key_local (master : Wallet) (w : World Net) :
  disk (snd (mint_new_key master w)) = disk w
  /\ clock (snd (mint_new_key master w)) = clock w.
Proof.
  unfold mint_new_key, bind, Date_now, request, lift_outcome.
  destruct (getLatestBlockhash (net w)) as [[blockhash | m] net1]; simpl; auto.
  destruct (createSiweMessageWithRecaps _) as [toSign | m]; simpl; auto.
  destruct (generateAuthSig master toSign) as [authSig | m]; simpl; auto.
  destruct (mintWithAuth _ _ net1) as [[mintInfo | m] net2]; simpl; auto.
Qed.

(** [createWallet], step by step: the guard, the lookup, the minting,
    the write. *)
Lemma createWallet_steps (this : PKPWalletManager) (userData : UserData.t)
    (w : World Net) :
  createWallet this userData w =
    match litClient this, contractClient this, masterWallet this with
    | Some _, Some _, Some master =>
        match lookup (UserData.id userData) (stored w) with
        | Some existing => (Ok (UserPKPData.pkp existing), w)
        | None =>
            match mint_new_key master w with
            | (Ok mintInfo, w1) =>
                (Ok (minted_pkp mintInfo),
                 snd (saveUserPKPs
                        (stored w1 ++
                         [UserPKPData.mk userData (minted_pkp mintInfo)
                            (toISOString (clock w1))])%list w1))
            | (Err e, w1) => (Err e, w1)
            end
        end
    | _, _, _ => (Err NotInitialized, w)
    end.
Proof.
  unfold createWallet.
  destruct (litClient this); [| reflexivity].
  destruct (contractClient this); [| reflexivity].
  destruct (masterWallet this) as [master |]; [| reflexivity].
  unfold bind at 1. rewrite findUserPKP_lookup.
  destruct (lookup (UserData.id userData) (stored w)); [reflexivity |].
  unfold mint_new_key, bind, Date_now, request, lift_outcome.
  cbv beta zeta iota.
  destruct (getLatestBlockhash (net w)) as [[blockhash | m] net1];
    cbv beta zeta iota; [| reflexivity].
  destruct (createSiweMessageWithRecaps _) as [toSign | m];
    cbv beta zeta iota; [| reflexivity].
  destruct (generateAuthSig master toSign) as [authSig | m];
    cbv beta zeta iota; [| reflexivity].
  simpl net.
  destruct (mintWithAuth _ _ net1) as [[mintInfo | m] net2];
    cbv beta zeta iota; [| reflexivity].
  rewrite loadUserPKPs_stored.
  match goal with
  | |- context [saveUserPKPs ?records ?world] =>
      destruct (saveUserPKPs_cases records world) as (w' & -> & _)
  end.
  reflexivity.
Qed.

Lemma createWallet_existing (this : PKPWalletManager) (userData : UserData.t)
    (w : World Net) (existing : UserPKPData.t) :
  ready_to_issue this = true ->
  lookup (UserData.id userData) (stored w) = Some existing ->
  createWallet this userData w = (Ok (UserPKPData.pkp existing), w).
Proof.
  intros Hready Hfound. rewrite createWallet_steps, Hfound.
  unfold ready_to_issue in Hready.
  destruct (litClient this); [| discriminate].
  destruct (contractClient this); [| discriminate].
  destruct (masterWallet this); [reflexivity | discriminate].
Qed.

(** What a call of [createWallet] does to the store: nothing, or, when
    the user had no binding, one binding for that user appended. *)
Lemma createWallet_store (this : PKPWalletManager) (userData : UserData.t)
    (w : World Net) :
  stored (snd (createWallet this userData w)) = stored w
  \/ (lookup (UserData.id userData) (stored w) = None
      /\ exists key created,
           fst (createWallet this userData w) = Ok key
           /\ stored (snd (createWallet this userData w)) =
                (stored w ++ [UserPKPData.mk userData key created])%list).
Proof.
  rewrite createWallet_steps.
  destruct (litClient this); [| left; reflexivity].
  destruct (contractClient this); [| left; reflexivity].
  destruct (masterWallet this) as [master |]; [| left; reflexivity].
  destruct (lookup (UserData.id userData) (stored w)) eqn:Hfind;
    [left; reflexivity |].
  destruct (mint_new_key_local master w) as [Hdisk _].
  destruct (mint_new_key master w) as [[mintInfo | e] w1]; simpl in *;
    [| left; unfold stored; rewrite Hdisk; reflexivity].
  match goal with
  | |- context [saveUserPKPs ?records w1] =>
      destruct (saveUserPKPs_cases records w1)
        as (w' & -> & _ & _ & _ & [[_ Hfile] | [_ Hfile]])
  end; simpl.
  - left. unfold stored, stored_in. rewrite Hfile, Hdisk. reflexivity.
  - right. split; [reflexivity |].
    exists (minted_pkp mintInfo), (toISOString (clock w1)).
    split; [reflexivity |].
    unfold stored at 1, stored_in at 1. rewrite Hfile.
    unfold stored. rewrite Hdisk. reflexivity.
Qed.

(** C1 (amended). If a call of [createWallet] for a user returns a key
    and the store holds a binding for that user afterwards (the call
    found one, or its write to the data file went through), then a
    second call in the world the first one left returns the same key
    and leaves that world untouched: the key comes from the stored
    binding, and no request for minting goes out. *)
Theorem createWallet_idempotent_once_stored
    (this : PKPWalletManager) (userData : UserData.t) (w w1 : World Net)
    (key : PKPData.t) :
  createWallet this userData w = (Ok key, w1) ->
  lookup (UserData.id userData) (stored w1) <> None ->
  createWallet this userData w1 = (Ok key, w1).
Proof.
  intros Hfirst Hstored.
  assert (Hready : ready_to_issue this = true).
  { rewrite createWallet_steps in Hfirst. unfold ready_to_issue.
    destruct (litClient this); [| discriminate].
    destruct (contractClient this); [| discriminate].
    destruct (masterWallet this); [reflexivity | discriminate]. }
  destruct (lookup (UserData.id userData) (stored w)) as [existing |] eqn:Hfind.
  - rewrite (createWallet_existing this userData w existing Hready Hfind) in Hfirst.
    injection Hfirst as <- <-.
    apply createWallet_existing; assumption.
  - destruct (createWallet_store this userData w)
      as [Hsame | (_ & key' & created & Hkey & Happended)];
      rewrite Hfirst in *; simpl in *.
    + rewrite Hsame in Hstored. contradiction.
    + injection Hkey as <-.
      apply (createWallet_existing this userData w1
               (UserPKPData.mk userData key created) Hready).
      rewrite Happended. apply lookup_app_new; [assumption | reflexivity].
Qed.

(** C6. For a user with no binding, on a manager that is ready to
    issue: when the minting on the network returns a key and the write
    of the data file then throws, [createWallet] does not throw; it
    returns the minted key, and the store it leaves is the store it
    found, still without a binding for the user. *)
Theorem createWallet_returns_key_when_write_fails
    (this : PKPWalletManager) (userData : UserData.t) (w w1 : World Net)
    (master : Wallet) (mintInfo : MintInfo) :
  ready_to_issue this = true ->
  masterWallet this = Some master ->
  lookup (UserData.id userData) (stored w) = None ->
  mint_new_key master w = (Ok mintInfo, w1) ->
  write_fails (disk w) (writes (disk w)) = true ->
  exists w',
    createWallet this userData w = (Ok (minted_pkp mintInfo), w')
    /\ file (disk w') = file (disk w)
    /\ lookup (UserData.id userData) (stored w') = None
    /\ requests w' = requests w1.
Proof.
  intros Hready Hmaster Hnone Hmint Hfault.
  rewrite createWallet_steps, Hmaster, Hnone, Hmint.
  unfold ready_to_issue in Hready.
  destruct (litClient this); [| discriminate].
  destruct (contractClient this); [| discriminate].
  destruct (mint_new_key_local master w) as [Hdisk _].
  rewrite Hmint in Hdisk. simpl in Hdisk.
  match goal with
  | |- context [saveUserPKPs ?records w1] =>
      destruct (saveUserPKPs_cases records w1)
        as (w' & -> & _ & Hrequests & _ & [[_ Hfile] | [Hok _]])
  end.
  - exists w'. simpl. rewrite Hfile, Hdisk. repeat split; auto.
    unfold stored, stored_in. rewrite Hfile, Hdisk. exact Hnone.
  - rewrite Hdisk, Hfault in Hok. discriminate.
Qed.

(** *** Uniqueness of user ids in the store *)

Lemma unique_user_ids_append (records : list UserPKPData.t)
    (binding : UserPKPData.t) :
  unique_user_ids records ->
  Forall (fun other => user_id other <> user_id binding) records ->
  unique_user_ids (records ++ [binding]).
Proof.
  unfold unique_user_ids.
  induction records as [| first rest IH]; simpl; intros Hunique Hfresh.
  - constructor; [intros [] | constructor].
  - inversion Hunique as [| ? ? Hnotin Hrest]; subst.
    inversion Hfresh as [| ? ? Hfirst Hothers]; subst.
    constructor; [| apply IH; assumption].
    rewrite map_app, in_app_iff. simpl.
    intros [Hin | [Heq | []]]; [exact (Hnotin Hin) | exact (Hfirst (eq_sym Heq))].
Qed.

Lemma perform_preserves_unique_user_ids (this : PKPWalletManager)
    (op : Operation) (w : World Net) :
  unique_user_ids (stored w) -> unique_user_ids (stored (perform this op w)).
Proof.
  intros Hunique.
  destruct op as [userData | userId chain | userId message options
                 | userId domain types value chain | userId transaction chain];
    simpl.
  - destruct (createWallet_store this userData w)
      as [-> | (Hnone & key & created & _ & ->)]; [assumption |].
    apply unique_user_ids_append; [assumption |].
    apply lookup_none. exact Hnone.
  - rewrite getWallet_world. assumption.
  - unfold stored. rewrite signMessage_disk. assumption.
  - unfold stored. rewrite signTypedData_disk. assumption.
  - unfold stored. rewrite signTransaction_disk. assumption.
Qed.

(** C2. From a store with at most one binding per user id, any
    sequence of [createWallet], [getWallet] and signing calls made one
    after the other leaves a store in which no two bindings share a
    user id. *)
Theorem run_preserves_unique_user_ids (this : PKPWalletManager)
    (ops : list Operation) (w : World Net) :
  unique_user_ids (stored w) -> unique_user_ids (stored (run this ops w)).
Proof.
  revert w.
  induction ops as [| op rest IH]; simpl; intros w Hunique.
  - assumption.
  - apply IH. apply perform_preserves_unique_user_ids. assumption.
Qed.

End Properties.

(* ================================================================= *)
(** ** Properties of the verification utilities *)

Lemma all_ascii_complete (a : ascii) : In a all_ascii.
Proof.
  unfold all_ascii. rewrite <- (ascii_nat_embedding a).
  apply in_map. apply in_seq.
  pose proof (nat_ascii_bounded a). lia.
Qed.

Lemma same_letter_table :
  forallb
    (fun a =>
       forallb
         (fun b =>
            Bool.eqb (same_letter a b)
              (Ascii.eqb (lower_ascii a) (lower_ascii b)))
         all_ascii)
    all_ascii = true.
Proof. vm_compute. reflexivity. Qed.

Lemma same_letter_lower (a b : ascii) :
  same_letter a b = Ascii.eqb (lower_ascii a) (lower_ascii b).
Proof.
  pose proof same_letter_table as Htable.
  rewrite forallb_forall in Htable.
  specialize (Htable a (all_ascii_complete a)).
  rewrite forallb_forall in Htable.
  apply Bool.eqb_prop. apply Htable. apply all_ascii_complete.
Qed.

Lemma equal_ignoring_case_lower (s t : string) :
  equal_ignoring_case s t = String.eqb (toLowerCase s) (toLowerCase t).
Proof.
  revert t.
  induction s as [| a s IH]; intros [| b t]; simpl; try reflexivity.
  rewrite same_letter_lower, IH.
  destruct (Ascii.eqb (lower_ascii a) (lower_ascii b)); reflexivity.
Qed.

Section VerificationProperties.

Context `{Ethers}.

(** C5. [verifySignature] and [verifyTypedDataSignature] return a
    boolean on every input and never throw: [false] when the recovery
    of the signer throws, and otherwise [true] exactly when the
    recovered address and the expected address are equal up to the case
    of their letters. *)
Theorem verification_helpers_total
    (message signature expectedAddress : string)
    (domain : EIP712Domain.t) (types : EIP712Types) (value : Json) :
  verifySignature message signature expectedAddress =
    Ok (match verifyMessage message signature with
        | Returns recovered => equal_ignoring_case recovered expectedAddress
        | Throws _ => false
        end)
  /\ verifyTypedDataSignature domain types value signature expectedAddress =
       Ok (match verifyTypedData domain types value signature with
           | Returns recovered => equal_ignoring_case recovered expectedAddress
           | Throws _ => false
           end).
Proof.
  unfold verifySignature, verifyTypedDataSignature, try_pure, map_result,
    outcome_result.
  split.
  - destruct (verifyMessage message signature) as [recovered | m];
      [rewrite equal_ignoring_case_lower |]; reflexivity.
  - destruct (verifyTypedData domain types value signature) as [recovered | m];
      [rewrite equal_ignoring_case_lower |]; reflexivity.
Qed.

End VerificationProperties.

(* ================================================================= *)
(** ** The chain registry *)

Lemma getChainConfig_registered (chain : string) (config : ChainConfig.t) :
  own_property SUPPORTED_CHAINS chain = Some config ->
  getChainConfig chain = Ok (Own config).
Proof.
  intros Hown. unfold getChainConfig, get_property. rewrite Hown. reflexivity.
Qed.

(** The four registered names and their chain ids. *)
Lemma getChainConfig_chain_ids :
  map (fun chain => map_result Property_chainId (getChainConfig chain))
    [ "ethereum"; "sepolia"; "polygon"; "datil" ]
  = [ Ok (Some 1); Ok (Some 11155111); Ok (Some 137); Ok (Some 175188) ].
Proof. reflexivity. Qed.

(** A name that is neither in the table nor on [Object.prototype] is
    rejected. *)
Lemma getChainConfig_unknown (chain : string) :
  own_property SUPPORTED_CHAINS chain = None ->
  in_keys Object_prototype chain = false ->
  getChainConfig chain =
    Err (UnsupportedChain chain [ "ethereum"; "sepolia"; "polygon"; "datil" ]).
Proof.
  intros Hown Hproto. unfold getChainConfig, get_property.
  rewrite Hown, Hproto. reflexivity.
Qed.

(** C4. The chain name ["constructor"] is not in the static table, and
    [getChainConfig] does not reject it: the property read finds
    [Object.prototype.constructor], a function, so [!config] is false
    and that function is returned as if it were a chain descriptor. *)
Theorem getChainConfig_accepts_inherited_key :
  own_property SUPPORTED_CHAINS "constructor" = None
  /\ getChainConfig "constructor" = Ok (Inherited "constructor")
  /\ Property_chainId (Inherited "constructor") = None.
Proof. repeat split. Qed.

(* ================================================================= *)
(** ** Further properties: registry, issuance, signing, start-up *)

Section FurtherProperties.

Context {Net : Type} `{LitNetwork Net} `{AuthHelpers} `{PKPEthers}
  `{LitConnection Net} `{WalletRpc Net}.

(** *** The registry file *)

(** X2. [listUserWallets] never throws and changes nothing: it returns
    the bindings of a data file that parses, and the empty list when the
    file is missing or cannot be read or parsed. *)
Theorem listUserWallets_total (w : World Net) :
  listUserWallets w =
    (Ok (match file (disk w) with
         | FileJson records => records
         | FileAbsent | FileUnreadable => []
         end), w).
Proof.
  unfold listUserWallets. rewrite loadUserPKPs_stored.
  unfold stored, stored_in. destruct (file (disk w)); reflexivity.
Qed.

Lemma lookup_app_kept (userId : string) (records added : list UserPKPData.t)
    (binding : UserPKPData.t) :
  lookup userId records = Some binding ->
  lookup userId (records ++ added)%list = Some binding.
Proof.
  unfold lookup.
  induction records as [| first rest IH]; simpl; intros Hfind.
  - discriminate.
  - destruct (String.eqb (user_id first) userId); [assumption | auto].
Qed.

(** *** Key issuance *)

(** X3. A [createWallet] that throws has not touched the data file: no
    write was attempted, whatever made it throw (the guard, the
    blockhash, the SIWE message, the signature or the minting). *)
Theorem createWallet_failure_writes_nothing
    (this : PKPWalletManager) (userData : UserData.t) (w w' : World Net)
    (e : Error) :
  createWallet this userData w = (Err e, w') ->
  disk w' = disk w.
Proof.
  rewrite createWallet_steps.
  destruct (litClient this); [| intros [= _ <-]; reflexivity].
  destruct (contractClient this); [| intros [= _ <-]; reflexivity].
  destruct (masterWallet this) as [master |]; [| intros [= _ <-]; reflexivity].
  destruct (lookup (UserData.id userData) (stored w)); [discriminate |].
  destruct (mint_new_key_local master w) as [Hdisk _].
  destruct (mint_new_key master w) as [[mintInfo | e'] w1]; [discriminate |].
  intros [= _ <-]. exact Hdisk.
Qed.

Lemma mint_new_key_requests (master : Wallet) (w : World Net) :
  exists sent,
    requests (snd (mint_new_key master w)) = (requests w ++ sent)%list
    /\ (sent = [ReqLatestBlockhash]
        \/ exists authSig,
             sent = [ ReqLatestBlockhash;
                      ReqMintWithAuth (mkAuthMethod EthWallet authSig)
                        [ SignAnything; PersonalSign ] ]).
Proof.
  unfold mint_new_key, bind, Date_now, request, lift_outcome.
  cbv beta zeta iota.
  destruct (getLatestBlockhash (net w)) as [[blockhash | m] net1];
    cbv beta zeta iota; simpl;
    [| exists [ReqLatestBlockhash]; split; auto].
  destruct (createSiweMessageWithRecaps _) as [toSign | m];
    cbv beta zeta iota; simpl;
    [| exists [ReqLatestBlockhash]; split; auto].
  destruct (generateAuthSig master toSign) as [authSig | m];
    cbv beta zeta iota; simpl;
    [| exists [ReqLatestBlockhash]; split; auto].
  destruct (mintWithAuth _ _ net1) as [[mintInfo | m] net2];
    cbv beta zeta iota; simpl;
    (eexists; split; [rewrite <- app_assoc; reflexivity |];
     right; eexists; reflexivity).
Qed.

Lemma createWallet_requests (this : PKPWalletManager) (userData : UserData.t)
    (w : World Net) :
  exists sent,
    requests (snd (createWallet this userData w)) = (requests w ++ sent)%list
    /\ (sent = []
        \/ sent = [ReqLatestBlockhash]
        \/ exists authSig,
             sent = [ ReqLatestBlockhash;
                      ReqMintWithAuth (mkAuthMethod EthWallet authSig)
                        [ SignAnything; PersonalSign ] ]).
Proof.
  rewrite createWallet_steps.
  assert (Hnone : exists sent,
             requests w = (requests w ++ sent)%list
             /\ (sent = []
                 \/ sent = [ReqLatestBlockhash]
                 \/ exists authSig,
                      sent = [ ReqLatestBlockhash;
                               ReqMintWithAuth (mkAuthMethod EthWallet authSig)
                                 [ SignAnything; PersonalSign ] ])).
  { exists []. rewrite app_nil_r. auto. }
  destruct (litClient this); [| exact Hnone].
  destruct (contractClient this); [| exact Hnone].
  destruct (masterWallet this) as [master |]; [| exact Hnone].
  destruct (lookup (UserData.id userData) (stored w)); [exact Hnone |].
  destruct (mint_new_key_requests master w) as (sent & Hsent & Hshape).
  destruct (mint_new_key master w) as [[mintInfo | e] w1]; simpl in *.
  - match goal with
    | |- context [saveUserPKPs ?records w1] =>
        destruct (saveUserPKPs_cases records w1)
          as (w' & -> & _ & Hrequests & _)
    end.
    simpl. exists sent. rewrite Hrequests. split; [assumption | tauto].
  - exists sent. split; [assumption | tauto].
Qed.

(** X4. What [createWallet] sends to the network: nothing when it
    throws at its guard or finds the user's binding, and otherwise the
    request for the latest blockhash followed by at most one minting
    request, made with the wallet authentication method and the scopes
    sign-anything and personal-sign. *)
Theorem createWallet_sends_at_most_one_mint
    (this : PKPWalletManager) (userData : UserData.t) (w : World Net) :
  exists sent,
    requests (snd (createWallet this userData w)) = (requests w ++ sent)%list
    /\ if negb (ready_to_issue this)
          || is_some (lookup (UserData.id userData) (stored w))
       then sent = []
       else sent = [ReqLatestBlockhash]
            \/ exists authSig,
                 sent = [ ReqLatestBlockhash;
                          ReqMintWithAuth (mkAuthMethod EthWallet authSig)
                            [ SignAnything; PersonalSign ] ].
Proof.
  rewrite createWallet_steps. unfold ready_to_issue.
  assert (Hquiet : requests w = (requests w ++ [])%list)
    by (rewrite app_nil_r; reflexivity).
  destruct (litClient this); [| exists []; simpl; auto].
  destruct (contractClient this); [| exists []; simpl; auto].
  destruct (masterWallet this) as [master |]; [| exists []; simpl; auto].
  destruct (lookup (UserData.id userData) (stored w));
    [exists []; simpl; auto |].
  destruct (mint_new_key_requests master w) as (sent & Hsent & Hshape).
  exists sent. simpl. split; [| exact Hshape].
  destruct (mint_new_key master w) as [[mintInfo | e] w1]; simpl in *;
    [| assumption].
  match goal with
  | |- context [saveUserPKPs ?records w1] =>
      destruct (saveUserPKPs_cases records w1)
        as (w' & -> & _ & Hrequests & _)
  end.
  simpl. rewrite Hrequests. assumption.
Qed.

Lemma createWallet_stores_returned_key
    (this : PKPWalletManager) (userData : UserData.t) (w w1 : World Net)
    (key : PKPData.t) :
  write_fails (disk w) (writes (disk w)) = false ->
  createWallet this userData w = (Ok key, w1) ->
  match lookup (UserData.id userData) (stored w) with
  | Some existing => UserPKPData.pkp existing = key /\ w1 = w
  | None =>
      exists created,
        file (disk w1) =
          FileJson (stored w ++ [UserPKPData.mk userData key created])%list
  end.
Proof.
  intros Hwrite. rewrite createWallet_steps.
  destruct (litClient this); [| discriminate].
  destruct (contractClient this); [| discriminate].
  destruct (masterWallet this) as [master |]; [| discriminate].
  destruct (lookup (UserData.id userData) (stored w)) as [existing |].
  - intros [= <- <-]. auto.
  - destruct (mint_new_key_local master w) as [Hdisk _].
    destruct (mint_new_key master w) as [[mintInfo | e] w0]; [| discriminate].
    simpl in Hdisk.
    match goal with
    | |- context [saveUserPKPs ?records w0] =>
        destruct (saveUserPKPs_cases records w0)
          as (w' & -> & _ & _ & _ & [[Hfails _] | [_ Hfile]])
    end.
    + rewrite Hdisk, Hwrite in Hfails. discriminate.
    + simpl. intros [= <- <-]. eexists. rewrite Hfile.
      unfold stored. rewrite Hdisk. reflexivity.
Qed.

(** X5. When the coming write of the data file goes through, a
    [createWallet] that returns a key leaves a store in which a lookup
    of the user finds a binding that holds exactly that key. *)
Theorem createWallet_success_is_stored
    (this : PKPWalletManager) (userData : UserData.t) (w w1 : World Net)
    (key : PKPData.t) :
  write_fails (disk w) (writes (disk w)) = false ->
  createWallet this userData w = (Ok key, w1) ->
  exists binding,
    lookup (UserData.id userData) (stored w1) = Some binding
    /\ UserPKPData.pkp binding = key.
Proof.
  intros Hwrite Hcreate.
  pose proof (createWallet_stores_returned_key this userData w w1 key
                Hwrite Hcreate) as Hstored.
  destruct (lookup (UserData.id userData) (stored w)) as [existing |] eqn:Hfind.
  - destruct Hstored as [Hkey ->]. exists existing. auto.
  - destruct Hstored as (created & Hfile).
    exists (UserPKPData.mk userData key created). split; [| reflexivity].
    unfold stored at 1, stored_in. rewrite Hfile.
    apply lookup_app_new; [assumption | reflexivity].
Qed.

(** X6. A data file that exists but cannot be read or parsed is not
    repaired or kept: the first [createWallet] that mints and whose
    write goes through replaces it with a file that holds the new
    binding alone. *)
Theorem createWallet_overwrites_unreadable_file
    (this : PKPWalletManager) (userData : UserData.t) (w w1 : World Net)
    (key : PKPData.t) :
  file (disk w) = FileUnreadable ->
  write_fails (disk w) (writes (disk w)) = false ->
  createWallet this userData w = (Ok key, w1) ->
  exists created,
    file (disk w1) = FileJson [UserPKPData.mk userData key created].
Proof.
  intros Hfile Hwrite Hcreate.
  pose proof (createWallet_stores_returned_key this userData w w1 key
                Hwrite Hcreate) as Hstored.
  unfold stored, stored_in in Hstored. rewrite Hfile in Hstored.
  exact Hstored.
Qed.

Lemma createWallet_ok_ready (this : PKPWalletManager) (userData : UserData.t)
    (w w1 : World Net) (key : PKPData.t) :
  createWallet this userData w = (Ok key, w1) ->
  ready_to_issue this = true /\ ready_to_sign this = true.
Proof.
  rewrite createWallet_steps. unfold ready_to_issue, ready_to_sign.
  destruct (litClient this); [| discriminate].
  destruct (contractClient this); [| discriminate].
  destruct (masterWallet this); [auto | discriminate].
Qed.

Lemma createWallet_ok_lookup (this : PKPWalletManager) (userData : UserData.t)
    (w w1 : World Net) (key : PKPData.t) (binding : UserPKPData.t) :
  createWallet this userData w = (Ok key, w1) ->
  lookup (UserData.id userData) (stored w1) = Some binding ->
  UserPKPData.pkp binding = key.
Proof.
  intros Hcreate Hfound.
  destruct (createWallet_ok_ready this userData w w1 key Hcreate) as [Hready _].
  destruct (lookup (UserData.id userData) (stored w)) as [existing |] eqn:Hfind.
  - rewrite (createWallet_existing this userData w existing Hready Hfind)
      in Hcreate.
    injection Hcreate as <- <-. congruence.
  - destruct (createWallet_store this userData w)
      as [Hsame | (_ & key' & created & Hkey & Happended)];
      rewrite Hcreate in *; simpl in *.
    + congruence.
    + injection Hkey as <-.
      rewrite Happended,
        (lookup_app_new (UserData.id userData) (stored w)
           (UserPKPData.mk userData key created) Hfind eq_refl) in Hfound.
      injection Hfound as <-. reflexivity.
Qed.

(** X7. Issuing and then signing: once [createWallet] has returned a
    key for a user and the store holds the user's binding, [getWallet]
    for that user on a chain of the table gets past its guard, its
    lookup and its chain check without sending anything, and hands the
    wallet constructor the public key of the returned key, with PKP
    signing granted for that key's token id.  It returns the wallet so
    built when the constructor accepts it, and throws what the
    constructor threw otherwise. *)
Theorem createWallet_then_getWallet
    (this : PKPWalletManager) (userData : UserData.t) (w w1 : World Net)
    (key : PKPData.t) (chain : string) (config : ChainConfig.t) :
  createWallet this userData w = (Ok key, w1) ->
  lookup (UserData.id userData) (stored w1) <> None ->
  own_property SUPPORTED_CHAINS chain = Some config ->
  exists client pkpWallet,
    litClient this = Some client
    /\ pkpPubKey pkpWallet = PKPData.publicKey key
    /\ resourceAbilityRequests pkpWallet =
         [ (LitPKPResource (PKPData.tokenId key), PKPSigning);
           (LitActionResource "*", LitActionExecution) ]
    /\ sessionChain pkpWallet = toLowerCase (ChainConfig.name config)
    /\ getWallet this (UserData.id userData) chain w1 =
         (match PKPEthersWallet_new client pkpWallet with
          | Returns _ => Ok pkpWallet
          | Throws message => Err (Upstream message)
          end, w1).
Proof.
  intros Hcreate Hstored Hconfig.
  destruct (createWallet_ok_ready this userData w w1 key Hcreate) as [_ Hready].
  destruct (lookup (UserData.id userData) (stored w1)) as [binding |] eqn:Hfind;
    [| contradiction].
  pose proof (createWallet_ok_lookup this userData w w1 key binding
                Hcreate Hfind) as Hkey.
  rewrite (getWallet_known_user this (UserData.id userData) chain w1 binding
             config Hfind Hconfig).
  unfold ready_to_sign in Hready.
  destruct (litClient this) as [client |]; [| discriminate].
  destruct (masterWallet this) as [master |]; [| discriminate].
  exists client,
    (wallet_properties master binding (ChainConfig.name config) (clock w1)).
  unfold wallet_properties. simpl. rewrite Hkey. repeat split.
Qed.

(** *** Sequences of calls *)

Lemma perform_store_grows (this : PKPWalletManager) (op : Operation)
    (w : World Net) :
  exists added,
    stored (perform this op w) = (stored w ++ added)%list
    /\ (length added <= if is_createWallet op then 1 else 0)%nat.
Proof.
  assert (Hsame : forall w' : World Net, stored w' = stored w ->
            exists added,
              stored w' = (stored w ++ added)%list /\ (length added <= 0)%nat).
  { intros w' ->. exists []. rewrite app_nil_r. simpl. auto. }
  destruct op as [userData | userId chain | userId message options
                 | userId domain types value chain | userId transaction chain];
    simpl.
  - destruct (createWallet_store this userData w)
      as [Hstore | (_ & key & created & _ & Hstore)]; rewrite Hstore.
    + exists []. rewrite app_nil_r. simpl. auto.
    + eexists. split; [reflexivity |]. simpl. auto.
  - apply Hsame. rewrite getWallet_world. reflexivity.
  - apply Hsame. unfold stored. rewrite signMessage_disk. reflexivity.
  - apply Hsame. unfold stored. rewrite signTypedData_disk. reflexivity.
  - apply Hsame. unfold stored. rewrite signTransaction_disk. reflexivity.
Qed.

(** X8. The store is append-only: after any sequence of calls it is
    the store it was, followed by at most one new binding per
    [createWallet] call of the sequence; [getWallet] and the signing
    methods add none. *)
Theorem run_store_append_only (this : PKPWalletManager)
    (ops : list Operation) (w : World Net) :
  exists added,
    stored (run this ops w) = (stored w ++ added)%list
    /\ (length added <= length (filter is_createWallet ops))%nat.
Proof.
  revert w.
  induction ops as [| op rest IH]; simpl; intros w.
  - exists []. rewrite app_nil_r. simpl. auto.
  - destruct (perform_store_grows this op w) as (first & Hfirst & Hlen).
    destruct (IH (perform this op w)) as (more & Hmore & Hmorelen).
    exists (first ++ more)%list. split.
    + rewrite Hmore, Hfirst, app_assoc. reflexivity.
    + rewrite length_app.
      destruct (is_createWallet op); simpl in *; lia.
Qed.

(** X9. A key, once stored for a user id, stays the key that a lookup
    of that id returns, through any sequence of [createWallet],
    [getWallet] and signing calls: no call replaces or shadows it. *)
Theorem run_keeps_stored_binding (this : PKPWalletManager)
    (ops : list Operation) (w : World Net) (userId : string)
    (binding : UserPKPData.t) :
  lookup userId (stored w) = Some binding ->
  lookup userId (stored (run this ops w)) = Some binding.
Proof.
  revert w.
  induction ops as [| op rest IH]; simpl; intros w Hfound.
  - assumption.
  - apply IH.
    destruct (perform_store_grows this op w) as (added & -> & _).
    apply lookup_app_kept. assumption.
Qed.

Lemma mints_app (log sent : list Request) :
  mints (log ++ sent) = (mints log + mints sent)%nat.
Proof.
  unfold mints. rewrite filter_app, length_app. reflexivity.
Qed.

Lemma signing_requests_shape {A} (r : Request) (call : Net -> Outcome A * Net)
    (w : World Net) :
  is_mint r = false ->
  mints (requests (snd (request r call w))) = mints (requests w).
Proof.
  intros Hr. destruct (request_world r call w) as [_ ->].
  rewrite mints_app. unfold mints at 2. simpl. rewrite Hr. simpl. lia.
Qed.

Ltac case_getWallet this userId chain w :=
  let r := fresh "obtained" in
  let w' := fresh "w'" in
  let E := fresh "HgetWallet" in
  let W := fresh "Hworld" in
  pose proof (getWallet_world this userId chain w) as W;
  destruct (getWallet this userId chain w) as [r w'] eqn:E;
  simpl in W; subst w'.

Lemma perform_mints (this : PKPWalletManager) (op : Operation) (w : World Net) :
  (mints (requests (perform this op w))
   <= mints (requests w) + if is_createWallet op then 1 else 0)%nat.
Proof.
  destruct op as [userData | userId chain | userId message options
                 | userId domain types value chain | userId transaction chain];
    simpl.
  - destruct (createWallet_requests this userData w)
      as (sent & -> & [-> | [-> | (authSig & ->)]]);
      rewrite mints_app; unfold mints at 2; simpl; lia.
  - rewrite getWallet_world. lia.
  - unfold signMessage, bind.
    case_getWallet this userId
      (or_default (SignMessageOptions.chain options) "datil") w.
    destruct obtained as [wallet | e]; simpl; [| lia].
    destruct (or_default (SignMessageOptions.messageType options) plain);
      simpl; try lia; rewrite signing_requests_shape by reflexivity; lia.
  - unfold signTypedData, bind.
    case_getWallet this userId chain w.
    destruct obtained as [wallet | e]; simpl; [| lia].
    rewrite signing_requests_shape by reflexivity. lia.
  - unfold signTransaction, bind.
    case_getWallet this userId chain w.
    destruct obtained as [wallet | e]; simpl; [| lia].
    unfold lift_result.
    destruct (getChainConfig chain) as [config | e]; simpl; [| lia].
    rewrite signing_requests_shape by reflexivity. lia.
Qed.

(** X10. Only [createWallet] mints: over any sequence of calls, the
    number of minting requests sent is at most the number of
    [createWallet] calls in it; in particular a sequence of [getWallet]
    and signing calls sends none. *)
Theorem run_mints_at_most_once_per_createWallet (this : PKPWalletManager)
    (ops : list Operation) (w : World Net) :
  (mints (requests (run this ops w))
   <= mints (requests w) + length (filter is_createWallet ops))%nat.
Proof.
  revert w.
  induction ops as [| op rest IH]; simpl; intros w.
  - lia.
  - specialize (IH (perform this op w)).
    pose proof (perform_mints this op w) as Hop.
    destruct (is_createWallet op); simpl in *; lia.
Qed.

(** *** The signing facade *)

(** X11. [getWallet] returns a wallet only when the manager has its
    Lit client and master wallet, the store has a binding for the user
    and the chain name resolves to something that has a [name]; the
    wallet it returns is for that binding's public key and token id, and
    the world is the one it was called in. *)
Theorem getWallet_returns_only_when
    (this : PKPWalletManager) (userId chain : string) (w w' : World Net)
    (wallet : PKPEthersWallet) :
  getWallet this userId chain w = (Ok wallet, w') ->
  ready_to_sign this = true
  /\ chain_resolves chain = true
  /\ w' = w
  /\ exists binding,
       lookup userId (stored w) = Some binding
       /\ pkpPubKey wallet = PKPData.publicKey (UserPKPData.pkp binding)
       /\ resourceAbilityRequests wallet =
            [ (LitPKPResource (PKPData.tokenId (UserPKPData.pkp binding)),
               PKPSigning);
              (LitActionResource "*", LitActionExecution) ].
Proof.
  unfold getWallet, ready_to_sign, chain_resolves, getChainConfig.
  destruct (litClient this) as [client |]; [| discriminate].
  destruct (masterWallet this) as [master |]; [| discriminate].
  unfold bind. rewrite findUserPKP_lookup.
  destruct (lookup userId (stored w)) as [binding |]; [| discriminate].
  unfold lift_result.
  destruct (get_property SUPPORTED_CHAINS chain) as [config |]; [| discriminate].
  destruct (Property_name config) as [chainName |]; [| discriminate].
  unfold Date_now, lift_outcome. simpl.
  destruct (PKPEthersWallet_new client _); [| discriminate].
  intros [= <- <-]. repeat split. exists binding. repeat split.
Qed.

(** X12. For a stored user on a manager that is ready to sign, a chain
    name found neither in the table nor on [Object.prototype] makes
    [getWallet] and the three signing methods throw the
    unsupported-chain condition, which names the chain asked for and
    lists the four supported ones; nothing is sent and nothing
    changes. *)
Theorem signing_unknown_chain_fails_before_network
    (this : PKPWalletManager) (userId : string) (w : World Net)
    (binding : UserPKPData.t) (message : string)
    (messageType : option MessageType)
    (domain : EIP712Domain.t) (types : EIP712Types) (value : Json)
    (transaction : TransactionRequest.t) (chain : string) :
  ready_to_sign this = true ->
  lookup userId (stored w) = Some binding ->
  get_property SUPPORTED_CHAINS chain = None ->
  let condition :=
    UnsupportedChain chain [ "ethereum"; "sepolia"; "polygon"; "datil" ] in
  getWallet this userId chain w = (Err condition, w)
  /\ signMessage this userId message
       (SignMessageOptions.mk (Some chain) messageType) w = (Err condition, w)
  /\ signTypedData this userId domain types value chain w = (Err condition, w)
  /\ signTransaction this userId transaction chain w = (Err condition, w).
Proof.
  intros Hready Hfound Hchain condition. subst condition.
  assert (Hwallet : getWallet this userId chain w =
            (Err (UnsupportedChain chain
                    [ "ethereum"; "sepolia"; "polygon"; "datil" ]), w)).
  { unfold getWallet. unfold ready_to_sign in Hready.
    destruct (litClient this); [| discriminate].
    destruct (masterWallet this); [| discriminate].
    unfold bind. rewrite findUserPKP_lookup, Hfound.
    unfold lift_result, getChainConfig. rewrite Hchain. reflexivity. }
  repeat split.
  - exact Hwallet.
  - unfold signMessage, bind. simpl. rewrite Hwallet. reflexivity.
  - unfold signTypedData, bind. rewrite Hwallet. reflexivity.
  - unfold signTransaction, bind. rewrite Hwallet. reflexivity.
Qed.

Lemma getWallet_ok_chain (this : PKPWalletManager) (userId chain : string)
    (w w' : World Net) (wallet : PKPEthersWallet) :
  getWallet this userId chain w = (Ok wallet, w') ->
  exists config, getChainConfig chain = Ok config.
Proof.
  unfold getWallet.
  destruct (litClient this); [| discriminate].
  destruct (masterWallet this); [| discriminate].
  unfold bind. rewrite findUserPKP_lookup.
  destruct (lookup userId (stored w)); [| discriminate].
  unfold lift_result.
  destruct (getChainConfig chain) as [config | e]; [| discriminate].
  intros _. exists config. reflexivity.
Qed.

(** X13. [signTransaction] sends one signing request when [getWallet]
    returns a wallet and none when it throws.  The request it sends
    never carries a zero gas limit, an empty value or an empty gas
    price (a gas price that is not the caller's non-empty string is
    20 gwei), and it carries the caller's [to] and [data] as given. *)
Theorem signTransaction_never_forwards_falsy
    (this : PKPWalletManager) (userId : string)
    (transaction : TransactionRequest.t) (chain : string) (w : World Net) :
  match fst (getWallet this userId chain w) with
  | Ok wallet =>
      exists txRequest,
        requests (snd (signTransaction this userId transaction chain w)) =
          (requests w ++ [ReqSignTransaction wallet txRequest])%list
        /\ (TxRequest.gasLimit txRequest =? 0) = false
        /\ String.eqb (TxRequest.value txRequest) "" = false
        /\ match TxRequest.gasPrice txRequest with
           | OfString price => String.eqb price "" = false
           | BigNumber wei => wei = 20000000000
           end
        /\ TxRequest.to txRequest = TransactionRequest.to transaction
        /\ TxRequest.data txRequest = TransactionRequest.data transaction
  | Err _ =>
      requests (snd (signTransaction this userId transaction chain w)) =
        requests w
  end.
Proof.
  unfold signTransaction, bind.
  case_getWallet this userId chain w.
  destruct obtained as [wallet | e]; simpl; [| reflexivity].
  destruct (getWallet_ok_chain this userId chain w w wallet HgetWallet)
    as (config & ->).
  unfold lift_result.
  eexists. split; [apply request_world |].
  unfold build_txRequest, truthy_number, truthy_string, parseUnits_gwei, gwei.
  simpl.
  destruct (TransactionRequest.gasLimit transaction) as [g |];
    destruct (TransactionRequest.gasPrice transaction) as [p |];
    destruct (TransactionRequest.value transaction) as [v |];
    try destruct (g =? 0) eqn:Hg; try destruct (String.eqb p "") eqn:Hp;
    try destruct (String.eqb v "") eqn:Hv; simpl; repeat split; auto.
Qed.

(** X14. A manager as the constructor leaves it, whatever the key, the
    network and the data file it was given, refuses every call with the
    not-initialized condition, for stored and unknown users alike, and
    the call changes nothing and sends nothing. *)
Theorem new_manager_refuses_every_call
    (key : string) (networkName file : option string) (w : World Net)
    (userData : UserData.t) (userId chain message : string)
    (options : SignMessageOptions.t)
    (domain : EIP712Domain.t) (types : EIP712Types) (value : Json)
    (transaction : TransactionRequest.t) :
  let this := new_PKPWalletManager key networkName file in
  createWallet this userData w = (Err NotInitialized, w)
  /\ getWallet this userId chain w = (Err NotInitialized, w)
  /\ signMessage this userId message options w = (Err NotInitialized, w)
  /\ signTypedData this userId domain types value chain w
     = (Err NotInitialized, w)
  /\ signTransaction this userId transaction chain w = (Err NotInitialized, w)
  /\ getWalletInfo this userId chain w = (Err NotInitialized, w).
Proof.
  repeat split.
Qed.

(** *** The chain registry *)

Lemma own_property_in_keys {V} (o : list (string * V)) (key : string) :
  is_some (own_property o key) = in_keys (map fst o) key.
Proof.
  unfold in_keys.
  induction o as [| [k v] rest IH]; simpl; [reflexivity |].
  rewrite (String.eqb_sym key k).
  destruct (String.eqb k key); simpl; auto.
Qed.

Lemma own_property_listed {V} (o : list (string * V)) (key : string) :
  In key (map fst o) ->
  exists v, own_property o key = Some v /\ In (key, v) o.
Proof.
  induction o as [| [k v] rest IH]; simpl; [intros [] |].
  destruct (String.eqb k key) eqn:Hk.
  - intros _. apply String.eqb_eq in Hk. subst k. exists v. auto.
  - intros [Heq | Hin].
    + subst k. rewrite String.eqb_refl in Hk. discriminate.
    + destruct (IH Hin) as (v' & Hown & Hin'). exists v'. auto.
Qed.

(** X15. Every chain name that [getSupportedChains] reports is accepted
    by [getChainConfig], which returns the table's own entry for that
    name. *)
Theorem getSupportedChains_all_resolve (chain : string) :
  In chain getSupportedChains ->
  exists config,
    getChainConfig chain = Ok (Own config)
    /\ In (chain, config) SUPPORTED_CHAINS.
Proof.
  intros Hlisted.
  destruct (own_property_listed SUPPORTED_CHAINS chain Hlisted)
    as (config & Hown & Hin).
  exists config. split; [| assumption].
  unfold getChainConfig, get_property. rewrite Hown. reflexivity.
Qed.

(** X16. [getChainConfig] returns exactly for the names that are keys
    of the table or properties of [Object.prototype]; for every other
    string it throws the unsupported-chain condition, which carries the
    string asked for and the four supported names in table order. *)
Theorem getChainConfig_accepts_exactly (chain : string) :
  match getChainConfig chain with
  | Ok _ =>
      in_keys getSupportedChains chain || in_keys Object_prototype chain = true
  | Err e =>
      e = UnsupportedChain chain [ "ethereum"; "sepolia"; "polygon"; "datil" ]
      /\ in_keys getSupportedChains chain || in_keys Object_prototype chain
         = false
  end.
Proof.
  unfold getChainConfig, get_property, getSupportedChains.
  rewrite <- (own_property_in_keys SUPPORTED_CHAINS chain).
  destruct (own_property SUPPORTED_CHAINS chain); [reflexivity |].
  destruct (in_keys Object_prototype chain); [reflexivity | split; reflexivity].
Qed.

(** *** Start-up *)

(** Whatever [initialize] does, it keeps the configuration of the
    manager and does not touch the data file or the request log. *)
Lemma initialize_keeps (this this' : PKPWalletManager) (w w' : World Net)
    (outcome : option InitError) :
  initialize this w = (outcome, this', w') ->
  privateKey this' = privateKey this
  /\ network this' = network this
  /\ dataFile this' = dataFile this
  /\ disk w' = disk w
  /\ requests w' = requests w
  /\ clock w' = clock w.
Proof.
  unfold initialize, connect.
  destruct (negb (truthy_string (privateKey this)));
    [intros [= _ <- <-]; auto 10 |].
  destruct (own_property SUPPORTED_CHAINS "datil") as [datil |];
    [| intros [= _ <- <-]; auto 10].
  destruct (JsonRpcProvider_new _) as [provider | m];
    [| intros [= _ <- <-]; auto 10].
  destruct (Wallet_new _ provider) as [wallet | m];
    [| intros [= _ <- <-]; auto 10].
  destruct (LitNodeClient_new _) as [client | m];
    [| intros [= _ <- <-]; simpl; auto 10].
  destruct (LitNodeClient_connect client (net w)) as [[[] | m] net1];
    [| intros [= _ <- <-]; simpl; auto 10].
  destruct (LitContracts_new wallet _) as [contracts | m];
    [| intros [= _ <- <-]; simpl; auto 10].
  simpl.
  destruct (LitContracts_connect contracts net1) as [[[] | m] net2];
    intros [= _ <- <-]; simpl; auto 10.
Qed.

(** X17. With an empty private key, [initialize] throws its
    "Private key is required" before building or connecting anything:
    the manager and the world are as they were.  With a non-empty key
    it never throws that condition. *)
Theorem initialize_requires_private_key
    (this : PKPWalletManager) (w : World Net) :
  if String.eqb (privateKey this) "" then
    initialize this w = (Some PrivateKeyRequired, this, w)
  else
    match fst (fst (initialize this w)) with
    | Some PrivateKeyRequired => False
    | _ => True
    end.
Proof.
  unfold initialize, connect, truthy_string.
  destruct (String.eqb (privateKey this) ""); simpl; [reflexivity |].
  destruct (JsonRpcProvider_new _) as [provider | m]; [| exact I].
  destruct (Wallet_new _ provider) as [wallet | m]; [| exact I].
  destruct (LitNodeClient_new _) as [client | m]; [| exact I].
  destruct (LitNodeClient_connect client (net w)) as [[[] | m] net1];
    [| exact I].
  destruct (LitContracts_new wallet _) as [contracts | m]; [| exact I].
  simpl.
  destruct (LitContracts_connect contracts net1) as [[[] | m] net2]; exact I.
Qed.

(** X18. When [initialize] returns, the manager passes the guards of
    [createWallet] and of [getWallet], its private key is non-empty and
    its key, network name and data file path are the ones it was
    constructed with; the data file and the request log are
    untouched. *)
Theorem initialize_success_makes_ready
    (this this' : PKPWalletManager) (w w' : World Net) :
  initialize this w = (None, this', w') ->
  ready_to_issue this' = true
  /\ ready_to_sign this' = true
  /\ truthy_string (privateKey this') = true
  /\ privateKey this' = privateKey this
  /\ network this' = network this
  /\ dataFile this' = dataFile this
  /\ disk w' = disk w
  /\ requests w' = requests w.
Proof.
  intros Hinit.
  destruct (initialize_keeps this this' w w' None Hinit)
    as (Hkey & Hnetwork & Hfile & Hdisk & Hrequests & _).
  rewrite Hkey.
  revert Hinit. unfold initialize, connect.
  destruct (truthy_string (privateKey this)); simpl; [| discriminate].
  destruct (JsonRpcProvider_new _) as [provider | m]; [| discriminate].
  destruct (Wallet_new _ provider) as [wallet | m]; [| discriminate].
  destruct (LitNodeClient_new _) as [client | m]; [| discriminate].
  destruct (LitNodeClient_connect client (net w)) as [[[] | m] net1];
    [| discriminate].
  destruct (LitContracts_new wallet _) as [contracts | m]; [| discriminate].
  simpl.
  destruct (LitContracts_connect contracts net1) as [[[] | m] net2];
    [| discriminate].
  intros [= <- _]. repeat split; auto.
Qed.

(** X19. A failed [initialize] can leave a manager that signs.  If
    [initialize], called on a manager without a Lit client, throws after
    it has built the client (that is, in one of the two [connect] calls
    or in building the contracts client), then the manager it leaves
    passes the guard of [getWallet]: for a stored user and a chain of
    the table, [getWallet] goes on to build the wallet for the stored
    key and returns it, or throws what the wallet constructor threw,
    and not the not-initialized condition. *)
Theorem failed_initialize_leaves_signing_open
    (this this' : PKPWalletManager) (w w' : World Net) (e : InitError)
    (userId chain : string) (binding : UserPKPData.t)
    (config : ChainConfig.t) :
  initialize this w = (Some e, this', w') ->
  litClient this = None ->
  litClient this' <> None ->
  lookup userId (stored w) = Some binding ->
  own_property SUPPORTED_CHAINS chain = Some config ->
  ready_to_sign this' = true
  /\ exists client master,
       litClient this' = Some client
       /\ masterWallet this' = Some master
       /\ getWallet this' userId chain w' =
            (match
               PKPEthersWallet_new client
                 (wallet_properties master binding (ChainConfig.name config)
                    (clock w'))
             with
             | Returns _ =>
                 Ok (wallet_properties master binding (ChainConfig.name config)
                       (clock w'))
             | Throws message => Err (Upstream message)
             end, w').
Proof.
  intros Hinit Hfresh Hbuilt Hfound Hconfig.
  destruct (initialize_keeps this this' w w' (Some e) Hinit)
    as (_ & _ & _ & Hdisk & _).
  assert (Hready : ready_to_sign this' = true).
  { revert Hinit Hbuilt. unfold initialize, connect, ready_to_sign.
    destruct (negb (truthy_string (privateKey this)));
      [intros [= _ <- _]; congruence |].
    destruct (own_property SUPPORTED_CHAINS "datil") as [datil |];
      [| intros [= _ <- _]; congruence].
    destruct (JsonRpcProvider_new _) as [provider | m];
      [| intros [= _ <- _]; congruence].
    destruct (Wallet_new _ provider) as [wallet | m];
      [| intros [= _ <- _]; congruence].
    destruct (LitNodeClient_new _) as [client | m];
      [| intros [= _ <- _]; simpl; congruence].
    destruct (LitNodeClient_connect client (net w)) as [[[] | m] net1];
      [| intros [= _ <- _]; reflexivity].
    destruct (LitContracts_new wallet _) as [contracts | m];
      [| intros [= _ <- _]; reflexivity].
    simpl.
    destruct (LitContracts_connect contracts net1) as [[[] | m] net2];
      intros [= _ <- _]; reflexivity. }
  split; [exact Hready |].
  assert (Hfound' : lookup userId (stored w') = Some binding)
    by (unfold stored; rewrite Hdisk; exact Hfound).
  rewrite (getWallet_known_user this' userId chain w' binding config
             Hfound' Hconfig).
  unfold ready_to_sign in Hready.
  destruct (litClient this') as [client |]; [| discriminate].
  destruct (masterWallet this') as [master |]; [| discriminate].
  exists client, master. repeat split.
Qed.

(** *** Wallet information *)

(** X20. [getWalletInfo] for a user with no stored binding throws
    before any read goes out, in the world it was called in: the
    not-found condition on a manager that is ready to sign, the
    not-initialized one otherwise. *)
Theorem getWalletInfo_unknown_user
    (this : PKPWalletManager) (userId chain : string) (w : World Net) :
  lookup userId (stored w) = None ->
  getWalletInfo this userId chain w =
    (Err (if ready_to_sign this then NoPKPFound userId else NotInitialized), w).
Proof.
  intros Hnone. unfold getWalletInfo, bind.
  rewrite getWallet_unknown_user by assumption. reflexivity.
Qed.

(** X21. On a chain of the table, the information [getWalletInfo]
    returns carries that chain's id from the table; it is returned only
    for a user who has a stored binding, and the data file is left as it
    was. *)
Theorem getWalletInfo_reports_table_chain_id
    (this : PKPWalletManager) (userId chain : string) (w w' : World Net)
    (config : ChainConfig.t) (info : WalletInfo.t) :
  own_property SUPPORTED_CHAINS chain = Some config ->
  getWalletInfo this userId chain w = (Ok info, w') ->
  WalletInfo.chainId info = Some (ChainConfig.chainId config)
  /\ disk w' = disk w
  /\ exists binding,
       lookup userId (stored w) = Some binding.
Proof.
  intros Hconfig. unfold getWalletInfo, bind.
  destruct (lookup userId (stored w)) as [binding |] eqn:Hfound.
  - rewrite (getWallet_known_user this userId chain w binding config
               Hfound Hconfig).
    destruct (litClient this) as [client |]; [| discriminate].
    destruct (masterWallet this) as [master |]; [| discriminate].
    cbv zeta.
    destruct (PKPEthersWallet_new client _); [| discriminate].
    unfold lift_result. rewrite (getChainConfig_registered chain config Hconfig).
    unfold rpc. simpl.
    destruct (wallet_getAddress _ (net w)) as [[address | m] net1];
      [| discriminate].
    simpl.
    destruct (wallet_getBalance _ net1) as [[balance | m] net2];
      [| discriminate].
    simpl.
    destruct (wallet_getTransactionCount _ net2) as [[nonce | m] net3];
      [| discriminate].
    simpl. intros [= <- <-]. simpl. repeat split. exists binding. reflexivity.
  - rewrite getWallet_unknown_user by assumption. discriminate.
Qed.

End FurtherProperties.

(* ================================================================= *)
(** ** Further properties of the verification utilities *)

Section FurtherVerification.

Context `{Ethers}.

(** X22. The verdict of both verification helpers does not depend on
    the letter case of the expected address: two expected addresses
    that are equal up to case get the same answer. *)
Theorem verification_ignores_case_of_expected
    (message signature expected expected' : string)
    (domain : EIP712Domain.t) (types : EIP712Types) (value : Json) :
  equal_ignoring_case expected expected' = true ->
  verifySignature message signature expected =
    verifySignature message signature expected'
  /\ verifyTypedDataSignature domain types value signature expected =
       verifyTypedDataSignature domain types value signature expected'.
Proof.
  intros Hsame. rewrite equal_ignoring_case_lower in Hsame.
  apply String.eqb_eq in Hsame.
  unfold verifySignature, verifyTypedDataSignature. rewrite Hsame.
  split; reflexivity.
Qed.

(** X23. One signature vouches for one address: if [verifySignature]
    accepts the same message and signature for two expected addresses,
    the two addresses are equal up to the case of their letters. *)
Theorem verifySignature_accepts_one_address
    (message signature expected expected' : string) :
  verifySignature message signature expected = Ok true ->
  verifySignature message signature expected' = Ok true ->
  equal_ignoring_case expected expected' = true.
Proof.
  unfold verifySignature, try_pure, map_result, outcome_result.
  destruct (verifyMessage message signature) as [recovered | m];
    [| discriminate].
  intros [= Hfirst] [= Hsecond].
  apply String.eqb_eq in Hfirst, Hsecond.
  rewrite equal_ignoring_case_lower, <- Hfirst, Hsecond.
  apply String.eqb_refl.
Qed.

End FurtherVerification.

(* ================================================================= *)
(** ** The properties at work in a concrete world *)

#[local] Existing Instance CountingNet.
#[local] Existing Instance PlainHelpers.
#[local] Existing Instance CheckingWallets.
#[local] Existing Instance OneSigner.

Example createWallet_alice_fresh :
  createWallet initialized_manager alice empty_world =
    (Ok (numbered_pkp 0),
     mkWorld
       (mkDisk
          (FileJson
             [UserPKPData.mk alice (numbered_pkp 0) "1970-01-01T00:00:00.000Z"])
          writable 1%nat)
       1%nat
       [ ReqLatestBlockhash;
         ReqMintWithAuth
           (mkAuthMethod EthWallet "sig:0xmaster wants to sign in")
           [ SignAnything; PersonalSign ] ]
       0).
Proof. reflexivity. Qed.

Example verifySignature_case_insensitive :
  verifySignature "hello" "0xsignature" "0xABCD" = Ok true
  /\ verifySignature "hello" "0xsignature" "0xabce" = Ok false
  /\ verifySignature "hello" "garbage" "0xabcd" = Ok false.
Proof. repeat split. Qed.

Example lookup_is_case_sensitive :
  lookup "Alice" [alice_binding] = None
  /\ lookup "alice" [alice_binding] = Some alice_binding.
Proof. split; reflexivity. Qed.

(** C1, as stated, fails: on a file system that refuses every write,
    the first call mints key 0 and returns it; the second call, made in
    the world the first one left, finds no binding, mints again and
    returns key 1. *)
Lemma createWallet_twice_mints_twice :
  createWallet initialized_manager alice failing_disk_world =
    (Ok (numbered_pkp 0), after_failed_write)
  /\ fst (createWallet initialized_manager alice after_failed_write) =
       Ok (numbered_pkp 1)
  /\ numbered_pkp 0 <> numbered_pkp 1
  /\ length (requests after_failed_write) = 2%nat
  /\ length (requests (snd (createWallet initialized_manager alice
                              after_failed_write))) = 4%nat.
Proof.
  repeat split; try reflexivity.
  vm_compute. discriminate.
Qed.

Lemma createWallet_idempotent_once_stored_witness :
  createWallet initialized_manager alice empty_world =
    (Ok (numbered_pkp 0), snd (createWallet initialized_manager alice empty_world))
  /\ lookup (UserData.id alice)
       (stored (snd (createWallet initialized_manager alice empty_world))) <> None
  /\ createWallet initialized_manager alice
       (snd (createWallet initialized_manager alice empty_world)) =
       (Ok (numbered_pkp 0), snd (createWallet initialized_manager alice empty_world)).
Proof.
  split; [reflexivity |].
  split; [vm_compute; discriminate |].
  apply (createWallet_idempotent_once_stored initialized_manager alice empty_world).
  - reflexivity.
  - vm_compute. discriminate.
Defined.

Lemma run_preserves_unique_user_ids_witness :
  unique_user_ids (stored empty_world)
  /\ unique_user_ids
       (stored
          (run initialized_manager
             [ OpCreateWallet alice;
               OpSignMessage "alice" "hello" SignMessageOptions.empty;
               OpCreateWallet alice;
               OpCreateWallet bob ]
             empty_world)).
Proof.
  split.
  - vm_compute. constructor.
  - apply (run_preserves_unique_user_ids initialized_manager).
    vm_compute. constructor.
Defined.

(** C3, as stated, fails: before [initialize], signing for an unknown
    user throws the not-initialized condition, not the not-found one. *)
Lemma signMessage_unknown_user_not_initialized :
  lookup "ghost" (stored empty_world) = None
  /\ signMessage fresh_manager "ghost" "hello" SignMessageOptions.empty empty_world =
       (Err NotInitialized, empty_world)
  /\ fst (signMessage fresh_manager "ghost" "hello" SignMessageOptions.empty
            empty_world) <> Err (NoPKPFound "ghost").
Proof.
  repeat split. vm_compute. discriminate.
Qed.

Lemma signing_unknown_user_fails_before_network_witness :
  lookup "ghost" (stored alice_world) = None
  /\ getWallet initialized_manager "ghost" "datil" alice_world =
       (Err (NoPKPFound "ghost"), alice_world)
  /\ signMessage initialized_manager "ghost" "hello" SignMessageOptions.empty
       alice_world = (Err (NoPKPFound "ghost"), alice_world)
  /\ signTypedData initialized_manager "ghost"
       (EIP712Domain.mk "PKP Test" "1" 175188 "0x0" None) [] JNull "datil"
       alice_world = (Err (NoPKPFound "ghost"), alice_world)
  /\ signTransaction initialized_manager "ghost"
       (TransactionRequest.mk "0xdead" None None None None) "datil"
       alice_world = (Err (NoPKPFound "ghost"), alice_world).
Proof.
  split; [reflexivity |].
  apply (signing_unknown_user_fails_before_network initialized_manager "ghost"
           alice_world).
  reflexivity.
Defined.

(** In a store with a binding for Bob followed by two different ones
    for Alice, the theorem leaves one answer for ["alice"]: the first of
    her two bindings, with Bob's alone before it. *)
Lemma findUserPKP_first_exact_match_witness :
  file (disk duplicates_world) =
    FileJson [bob_binding; alice_binding; alice_later]
  /\ alice_binding <> alice_later
  /\ findUserPKP "alice" duplicates_world =
       (Ok (Some alice_binding), duplicates_world)
  /\ findUserPKP "Alice" duplicates_world = (Ok None, duplicates_world).
Proof.
  split; [reflexivity |]. split; [discriminate |]. split.
  - destruct (findUserPKP_first_exact_match duplicates_world
                [bob_binding; alice_binding; alice_later] "alice" eq_refl)
      as (found & Hfind & Hshape).
    rewrite Hfind. f_equal. f_equal.
    destruct found as [binding |].
    + destruct Hshape as (before & after & Hsplit & Hid & Hbefore).
      destruct before as [| first before].
      * injection Hsplit as <- _. discriminate Hid.
      * injection Hsplit as <- Hsplit.
        destruct before as [| second before].
        -- injection Hsplit as <- _. reflexivity.
        -- injection Hsplit as <- _.
           inversion Hbefore as [| ? ? _ Hrest]. subst.
           inversion Hrest as [| ? ? Hsecond _]. subst.
           exfalso. apply Hsecond. reflexivity.
    + inversion Hshape as [| ? ? _ Hrest]. subst.
      inversion Hrest as [| ? ? Hsecond _]. subst.
      exfalso. apply Hsecond. reflexivity.
  - destruct (findUserPKP_first_exact_match duplicates_world
                [bob_binding; alice_binding; alice_later] "Alice" eq_refl)
      as (found & Hfind & Hshape).
    rewrite Hfind. f_equal. f_equal.
    destruct found as [binding |]; [| reflexivity].
    destruct Hshape as (before & after & Hsplit & Hid & _).
    destruct before as [| first before];
      [injection Hsplit as <- _; discriminate Hid |].
    injection Hsplit as _ Hsplit.
    destruct before as [| second before];
      [injection Hsplit as <- _; discriminate Hid |].
    injection Hsplit as _ Hsplit.
    destruct before as [| third before];
      [injection Hsplit as <- _; discriminate Hid |].
    injection Hsplit as _ Hsplit. destruct before; discriminate Hsplit.
Defined.

Lemma createWallet_returns_key_when_write_fails_witness :
  ready_to_issue initialized_manager = true
  /\ lookup (UserData.id alice) (stored failing_disk_world) = None
  /\ write_fails (disk failing_disk_world) (writes (disk failing_disk_world)) = true
  /\ exists w',
       createWallet initialized_manager alice failing_disk_world =
         (Ok (numbered_pkp 0), w')
       /\ file (disk w') = file (disk failing_disk_world)
       /\ lookup (UserData.id alice) (stored w') = None
       /\ requests w' = requests (snd (mint_new_key master failing_disk_world)).
Proof.
  split; [reflexivity |]. split; [reflexivity |]. split; [reflexivity |].
  apply (createWallet_returns_key_when_write_fails initialized_manager alice
           failing_disk_world (snd (mint_new_key master failing_disk_world))
           master (mkMintInfo (numbered_pkp 0)));
    reflexivity.
Defined.

(** C9, as stated, fails: with ["eip712"], an unknown user gets the
    not-found condition and an unknown chain the unsupported-chain
    condition, not the unsupported-message-type one. *)
Lemma signMessage_eip712_other_conditions :
  signMessage initialized_manager "ghost" "hello"
    (SignMessageOptions.mk None (Some eip712)) alice_world =
    (Err (NoPKPFound "ghost"), alice_world)
  /\ signMessage initialized_manager "alice" "hello"
       (SignMessageOptions.mk (Some "solana") (Some eip712)) alice_world =
       (Err (UnsupportedChain "solana" [ "ethereum"; "sepolia"; "polygon"; "datil" ]),
        alice_world)
  /\ fst (signMessage initialized_manager "ghost" "hello"
            (SignMessageOptions.mk None (Some eip712)) alice_world)
     <> Err (UnsupportedMessageType eip712).
Proof.
  repeat split. vm_compute. discriminate.
Qed.

Example signMessage_eip712_known_user :
  signMessage initialized_manager "carol" "hello"
    (SignMessageOptions.mk None (Some eip712)) carol_world =
    (Err (UnsupportedMessageType eip712), carol_world).
Proof. reflexivity. Qed.

(** The constructor decides: Carol's key is on the curve and gets a
    wallet; Alice's stored public key is no key at all, and [getWallet]
    throws what the constructor throws. *)
Example getWallet_depends_on_the_constructor :
  is_ok (fst (getWallet initialized_manager "carol" "datil" carol_world)) = true
  /\ getWallet initialized_manager "alice" "datil" alice_world =
       (Err (Upstream "Invalid public key"), alice_world).
Proof. split; reflexivity. Qed.

(** C10, as stated, fails: for Carol, whose stored key the wallet
    constructor accepts, a gas limit of 0 and an empty value supplied
    by the caller are not passed through; the request that is forwarded
    carries 21000 and ["0"]. *)
Lemma signTransaction_replaces_falsy_fields :
  let transaction :=
    TransactionRequest.mk "0xdead" (Some "") (Some 0) (Some "5") None in
  exists wallet txRequest,
    getWallet initialized_manager "carol" "ethereum" carol_world =
      (Ok wallet, carol_world)
    /\ pkpPubKey wallet = PKPData.publicKey curve_pkp_1
    /\ requests (snd (signTransaction initialized_manager "carol" transaction
                        "ethereum" carol_world)) =
         [ ReqSignTransaction wallet txRequest ]
    /\ TransactionRequest.gasLimit transaction = Some 0
    /\ TxRequest.gasLimit txRequest = 21000
    /\ TxRequest.gasLimit txRequest <> 0
    /\ TransactionRequest.value transaction = Some ""
    /\ TxRequest.value txRequest = "0".
Proof.
  cbv zeta. eexists. eexists.
  split; [reflexivity |]. split; [reflexivity |].
  split; [vm_compute; reflexivity |].
  repeat split. discriminate.
Qed.

Lemma signTransaction_forwarded_request_witness :
  let transaction :=
    TransactionRequest.mk "0xdead" None (Some 50000) None (Some "0x") in
  lookup "carol" (stored carol_world) = Some carol_binding
  /\ own_property SUPPORTED_CHAINS "polygon" =
       Some (ChainConfig.mk "Polygon Mainnet" 137 "https://polygon.llamarpc.com"
               (NativeCurrency.mk "MATIC" "MATIC" 18)
               (Some "https://polygonscan.com"))
  /\ exists wallet txRequest,
       fst (getWallet initialized_manager "carol" "polygon" carol_world) =
         Ok wallet
       /\ requests (snd (signTransaction initialized_manager "carol" transaction
                           "polygon" carol_world)) =
            [ ReqSignTransaction wallet txRequest ]
       /\ pkpPubKey wallet = PKPData.publicKey curve_pkp_1
       /\ TxRequest.chainId txRequest = Some 137
       /\ TxRequest.to txRequest = "0xdead"
       /\ TxRequest.data txRequest = Some "0x"
       /\ TxRequest.gasLimit txRequest = 50000
       /\ TxRequest.gasPrice txRequest = BigNumber 20000000000
       /\ TxRequest.value txRequest = "0".
Proof.
  cbv zeta.
  split; [reflexivity |]. split; [reflexivity |].
  pose proof
    (signTransaction_forwarded_request initialized_manager "carol"
       (TransactionRequest.mk "0xdead" None (Some 50000) None (Some "0x"))
       "polygon" carol_world carol_binding _ eq_refl eq_refl) as Hforwarded.
  cbv zeta in Hforwarded.
  destruct (fst (getWallet initialized_manager "carol" "polygon" carol_world))
    as [wallet | e] eqn:Hwallet; [| discriminate Hwallet].
  destruct Hforwarded
    as (txRequest & Hreq & Hkey & Hchain & Hto & Hdata & Hgas & Hprice & Hvalue).
  exists wallet, txRequest.
  repeat split; assumption.
Defined.

(* ================================================================= *)
(** ** The further properties at work in a concrete world *)

#[local] Existing Instance GoodConnection.
#[local] Existing Instance FixedRpc.

Example initialize_then_getWalletInfo :
  fst (fst (initialize fresh_manager empty_world)) = None
  /\ snd (fst (initialize fresh_manager empty_world)) = initialized_manager
  /\ fst (getWalletInfo initialized_manager "carol" "polygon" carol_world) =
       Ok (WalletInfo.mk "0x7E5F4552091A69125d5DfCb7b8C2659029395Bdf" "1.5" 3
             (Some 137)).
Proof. repeat split. Qed.

Lemma createWallet_failure_writes_nothing_witness :
  @createWallet nat RefusingNet PlainHelpers initialized_manager alice
    empty_world =
    (Err (Upstream "mint refused"),
     mkWorld (disk empty_world) 1%nat
       [ ReqLatestBlockhash;
         ReqMintWithAuth
           (mkAuthMethod EthWallet "sig:0xmaster wants to sign in")
           [ SignAnything; PersonalSign ] ]
       0)
  /\ disk
       (mkWorld (disk empty_world) 1%nat
          [ ReqLatestBlockhash;
            ReqMintWithAuth
              (mkAuthMethod EthWallet "sig:0xmaster wants to sign in")
              [ SignAnything; PersonalSign ] ]
          0) = disk empty_world.
Proof.
  split; [reflexivity |].
  apply (@createWallet_failure_writes_nothing nat RefusingNet PlainHelpers
           initialized_manager alice empty_world _ (Upstream "mint refused")).
  reflexivity.
Defined.

Lemma createWallet_success_is_stored_witness :
  write_fails (disk empty_world) (writes (disk empty_world)) = false
  /\ createWallet initialized_manager alice empty_world =
       (Ok (numbered_pkp 0),
        snd (createWallet initialized_manager alice empty_world))
  /\ exists binding,
       lookup (UserData.id alice)
         (stored (snd (createWallet initialized_manager alice empty_world))) =
         Some binding
       /\ UserPKPData.pkp binding = numbered_pkp 0.
Proof.
  split; [reflexivity |]. split; [reflexivity |].
  apply (createWallet_success_is_stored initialized_manager alice empty_world);
    reflexivity.
Defined.

Lemma createWallet_overwrites_unreadable_file_witness :
  file (disk corrupt_file_world) = FileUnreadable
  /\ write_fails (disk corrupt_file_world) (writes (disk corrupt_file_world)) =
       false
  /\ createWallet initialized_manager bob corrupt_file_world =
       (Ok (numbered_pkp 0),
        snd (createWallet initialized_manager bob corrupt_file_world))
  /\ exists created,
       file (disk (snd (createWallet initialized_manager bob corrupt_file_world))) =
         FileJson [UserPKPData.mk bob (numbered_pkp 0) created].
Proof.
  split; [reflexivity |]. split; [reflexivity |]. split; [reflexivity |].
  apply (createWallet_overwrites_unreadable_file initialized_manager bob
           corrupt_file_world);
    reflexivity.
Defined.

(** Bob's key is minted on the curve, stored, and handed to the wallet
    constructor, which accepts it. *)
Lemma createWallet_then_getWallet_witness :
  let w1 :=
    snd (@createWallet nat CurveNet PlainHelpers initialized_manager bob
           empty_world) in
  @createWallet nat CurveNet PlainHelpers initialized_manager bob empty_world =
    (Ok curve_pkp_2, w1)
  /\ lookup (UserData.id bob) (stored w1) <> None
  /\ exists client pkpWallet,
       litClient initialized_manager = Some client
       /\ pkpPubKey pkpWallet = PKPData.publicKey curve_pkp_2
       /\ resourceAbilityRequests pkpWallet =
            [ (LitPKPResource (PKPData.tokenId curve_pkp_2), PKPSigning);
              (LitActionResource "*", LitActionExecution) ]
       /\ sessionChain pkpWallet = "sepolia testnet"
       /\ getWallet initialized_manager (UserData.id bob) "sepolia" w1 =
            (Ok pkpWallet, w1).
Proof.
  cbv zeta.
  split; [reflexivity |].
  split; [vm_compute; discriminate |].
  destruct (@createWallet_then_getWallet nat CurveNet PlainHelpers
              CheckingWallets initialized_manager bob empty_world
              (snd (@createWallet nat CurveNet PlainHelpers initialized_manager
                      bob empty_world))
              curve_pkp_2 "sepolia"
              (ChainConfig.mk "Sepolia Testnet" 11155111
                 "https://sepolia.infura.io/v3/YOUR_KEY" ETH
                 (Some "https://sepolia.etherscan.io"))
              eq_refl ltac:(vm_compute; discriminate) eq_refl)
    as (client & pkpWallet & Hclient & Hkey & Hresources & Hchain & Hwallet).
  exists client, pkpWallet.
  repeat split; try assumption.
  rewrite Hwallet. unfold PKPEthersWallet_new, CheckingWallets.
  rewrite Hkey. reflexivity.
Defined.

Lemma run_keeps_stored_binding_witness :
  lookup "alice" (stored alice_world) = Some alice_binding
  /\ lookup "alice"
       (stored
          (run initialized_manager
             [ OpCreateWallet bob;
               OpCreateWallet alice;
               OpSignMessage "alice" "hello" SignMessageOptions.empty;
               OpCreateWallet (UserData.mk "alice" "Impostor" "x@example.com") ]
             alice_world)) = Some alice_binding.
Proof.
  split; [reflexivity |].
  apply (run_keeps_stored_binding initialized_manager).
  reflexivity.
Defined.

Lemma signing_unknown_chain_fails_before_network_witness :
  ready_to_sign initialized_manager = true
  /\ lookup "alice" (stored alice_world) = Some alice_binding
  /\ get_property SUPPORTED_CHAINS "solana" = None
  /\ getWallet initialized_manager "alice" "solana" alice_world =
       (Err (UnsupportedChain "solana"
               [ "ethereum"; "sepolia"; "polygon"; "datil" ]), alice_world)
  /\ signTransaction initialized_manager "alice"
       (TransactionRequest.mk "0xdead" None None None None) "solana"
       alice_world =
       (Err (UnsupportedChain "solana"
               [ "ethereum"; "sepolia"; "polygon"; "datil" ]), alice_world).
Proof.
  split; [reflexivity |]. split; [reflexivity |]. split; [reflexivity |].
  pose proof
    (signing_unknown_chain_fails_before_network initialized_manager "alice"
       alice_world alice_binding "hello" None
       (EIP712Domain.mk "PKP Test" "1" 175188 "0x0" None) [] JNull
       (TransactionRequest.mk "0xdead" None None None None) "solana"
       eq_refl eq_refl eq_refl) as Hall.
  cbv zeta in Hall.
  destruct Hall as (Hwallet & _ & _ & Htransaction).
  split; assumption.
Defined.

Lemma getSupportedChains_all_resolve_witness :
  In "polygon" getSupportedChains
  /\ exists config,
       getChainConfig "polygon" = Ok (Own config)
       /\ In ("polygon", config) SUPPORTED_CHAINS.
Proof.
  split; [simpl; auto |].
  apply (getSupportedChains_all_resolve "polygon"). simpl. auto.
Defined.

Lemma initialize_success_makes_ready_witness :
  initialize fresh_manager empty_world = (None, initialized_manager, empty_world)
  /\ ready_to_issue initialized_manager = true
  /\ ready_to_sign initialized_manager = true
  /\ truthy_string (privateKey initialized_manager) = true
  /\ privateKey initialized_manager = privateKey fresh_manager
  /\ network initialized_manager = network fresh_manager
  /\ dataFile initialized_manager = dataFile fresh_manager
  /\ disk empty_world = disk empty_world
  /\ requests empty_world = requests empty_world.
Proof.
  split; [reflexivity |].
  apply (initialize_success_makes_ready fresh_manager initialized_manager
           empty_world empty_world).
  reflexivity.
Defined.

(** The contracts refuse the connection: [initialize] throws, and the
    manager it leaves goes on to build a wallet for Carol all the
    same. *)
Lemma failed_initialize_leaves_signing_open_witness :
  @initialize nat ContractsDown fresh_manager carol_world =
    (Some (InitThrown "contracts unreachable"), initialized_manager, carol_world)
  /\ litClient fresh_manager = None
  /\ litClient initialized_manager <> None
  /\ lookup "carol" (stored carol_world) = Some carol_binding
  /\ ready_to_sign initialized_manager = true
  /\ exists client master,
       litClient initialized_manager = Some client
       /\ masterWallet initialized_manager = Some master
       /\ getWallet initialized_manager "carol" "datil" carol_world =
            (match
               PKPEthersWallet_new client
                 (wallet_properties master carol_binding "Lit Datil Testnet"
                    (clock carol_world))
             with
             | Returns _ =>
                 Ok (wallet_properties master carol_binding "Lit Datil Testnet"
                       (clock carol_world))
             | Throws message => Err (Upstream message)
             end, carol_world).
Proof.
  split; [reflexivity |]. split; [reflexivity |]. split; [discriminate |].
  split; [reflexivity |].
  apply (@failed_initialize_leaves_signing_open nat PlainHelpers
           CheckingWallets ContractsDown
           fresh_manager initialized_manager carol_world carol_world
           (InitThrown "contracts unreachable") "carol" "datil" carol_binding
           (ChainConfig.mk "Lit Datil Testnet" 175188
              LIT_RPC_CHRONICLE_YELLOWSTONE
              (NativeCurrency.mk "LIT" "LIT" 18) None));
    try reflexivity.
  discriminate.
Defined.

(** Carol's wallet is returned: the manager is ready, she has a
    binding, and the chain name is in the table. *)
Lemma getWallet_returns_only_when_witness :
  getWallet initialized_manager "carol" "datil" carol_world =
    (Ok (wallet_properties master carol_binding "Lit Datil Testnet" 0),
     carol_world)
  /\ ready_to_sign initialized_manager = true
  /\ chain_resolves "datil" = true
  /\ carol_world = carol_world
  /\ exists binding,
       lookup "carol" (stored carol_world) = Some binding
       /\ pkpPubKey (wallet_properties master carol_binding "Lit Datil Testnet" 0)
          = PKPData.publicKey (UserPKPData.pkp binding)
       /\ resourceAbilityRequests
            (wallet_properties master carol_binding "Lit Datil Testnet" 0) =
            [ (LitPKPResource (PKPData.tokenId (UserPKPData.pkp binding)),
               PKPSigning);
              (LitActionResource "*", LitActionExecution) ].
Proof.
  split; [reflexivity |].
  apply (getWallet_returns_only_when initialized_manager "carol" "datil"
           carol_world carol_world).
  reflexivity.
Defined.

Lemma getWalletInfo_unknown_user_witness :
  lookup "ghost" (stored alice_world) = None
  /\ getWalletInfo initialized_manager "ghost" "datil" alice_world =
       (Err (NoPKPFound "ghost"), alice_world).
Proof.
  split; [reflexivity |].
  apply (getWalletInfo_unknown_user initialized_manager "ghost" "datil"
           alice_world).
  reflexivity.
Defined.

Lemma getWalletInfo_reports_table_chain_id_witness :
  own_property SUPPORTED_CHAINS "ethereum" =
    Some (ChainConfig.mk "Ethereum Mainnet" 1 "https://eth.llamarpc.com" ETH
            (Some "https://etherscan.io"))
  /\ getWalletInfo initialized_manager "carol" "ethereum" carol_world =
       (Ok (WalletInfo.mk "0x7E5F4552091A69125d5DfCb7b8C2659029395Bdf" "1.5" 3
              (Some 1)), carol_world)
  /\ WalletInfo.chainId
       (WalletInfo.mk "0x7E5F4552091A69125d5DfCb7b8C2659029395Bdf" "1.5" 3
          (Some 1)) = Some 1
  /\ disk carol_world = disk carol_world
  /\ exists binding, lookup "carol" (stored carol_world) = Some binding.
Proof.
  split; [reflexivity |]. split; [reflexivity |].
  apply (getWalletInfo_reports_table_chain_id initialized_manager "carol"
           "ethereum" carol_world carol_world
           (ChainConfig.mk "Ethereum Mainnet" 1 "https://eth.llamarpc.com" ETH
              (Some "https://etherscan.io"))
           (WalletInfo.mk "0x7E5F4552091A69125d5DfCb7b8C2659029395Bdf" "1.5" 3
              (Some 1)));
    reflexivity.
Defined.

Lemma verification_ignores_case_of_expected_witness :
  equal_ignoring_case "0xABCD" "0xabcd" = true
  /\ verifySignature "hello" "0xsignature" "0xABCD" =
       verifySignature "hello" "0xsignature" "0xabcd"
  /\ verifyTypedDataSignature (EIP712Domain.mk "PKP Test" "1" 175188 "0x0" None)
       [] JNull "0xsignature" "0xABCD" =
     verifyTypedDataSignature (EIP712Domain.mk "PKP Test" "1" 175188 "0x0" None)
       [] JNull "0xsignature" "0xabcd".
Proof.
  split; [reflexivity |].
  apply (verification_ignores_case_of_expected "hello" "0xsignature"
           "0xABCD" "0xabcd").
  reflexivity.
Defined.

Lemma verifySignature_accepts_one_address_witness :
  verifySignature "hello" "0xsignature" "0xABCD" = Ok true
  /\ verifySignature "hello" "0xsignature" "0xabcd" = Ok true
  /\ equal_ignoring_case "0xABCD" "0xabcd" = true.
Proof.
  split; [reflexivity |]. split; [reflexivity |].
  apply (verifySignature_accepts_one_address "hello" "0xsignature"
           "0xABCD" "0xabcd");
    reflexivity.
Defined.
